(** * cacheplus.value: the get / compute / store orchestration

    A shallow embedding of [cacheplus/value.py]: the two decorators
    [cache_value] and [async_cache_value], their decoration-time check and
    the per-call [wrapper].  Python values, exception objects and the
    [try]/[except] discipline are modelled explicitly; the collaborators the
    module imports (the storage object, [pickle], [cacheplus._core]) enter as
    interfaces. *)

From Stdlib Require Import ZArith String Strings.Byte DecimalString List Bool.
From stdpp Require Import base option list strings pretty fin_maps gmap.

Import ListNotations.
Open Scope string_scope.
Open Scope list_scope.

(* ===================================================================== *)
(** * Part I: definitions                                                  *)
(* ===================================================================== *)

(** ** Python values *)

(** [bytes] objects: the payloads handed to and received from storage. *)
Definition bytes := list Byte.byte.

(** The fragment of Python values the decorated functions of this
    development take and return.  [PyObject cls st] is an instance of an
    arbitrary class [cls] (a temporary file, an [HTTPConnection], ...) and
    [PyFunction q] a reference to the function of qualified name [q]. *)
Inductive pyvalue : Type :=
| PyNone
| PyBool (b : bool)
| PyInt (z : Z)
| PyStr (s : string)
| PyBytes (b : bytes)
| PyFunction (qualname : string)
| PyObject (cls : string) (st : string).

#[global] Instance byte_eq_dec : EqDecision Byte.byte := Byte.byte_eq_dec.

#[global] Instance pyvalue_eq_dec : EqDecision pyvalue.
Proof. solve_decision. Defined.

(** [type(v).__name__] *)
Definition type_of (v : pyvalue) : string :=
  match v with
  | PyNone => "NoneType"
  | PyBool _ => "bool"
  | PyInt _ => "int"
  | PyStr _ => "str"
  | PyBytes _ => "bytes"
  | PyFunction _ => "function"
  | PyObject cls _ => cls
  end.

(** Keyword arguments, in call order. *)
Definition kwargs := list (string * pyvalue).

(** ** Exceptions *)

(** A class is known by its name and the names of its proper ancestors;
    this is all that an [except] clause inspects. *)
Record pyclass : Type := PyClass {
  cls_name : string;
  cls_ancestors : list string
}.

#[global] Instance pyclass_eq_dec : EqDecision pyclass.
Proof. solve_decision. Defined.

(** An exception object: its class, the positional and keyword arguments
    it was built from, and [__cause__] as set by [raise ... from ...]. *)
#[warnings="-register-all"]
Inductive exn : Type :=
| Exn (cls : pyclass) (args : list pyvalue) (attrs : kwargs)
      (cause : option exn).

Definition exn_class (e : exn) : pyclass := let 'Exn c _ _ _ := e in c.
Definition exn_args (e : exn) : list pyvalue := let 'Exn _ a _ _ := e in a.
Definition exn_attrs (e : exn) : kwargs := let 'Exn _ _ k _ := e in k.
Definition exn_cause (e : exn) : option exn := let 'Exn _ _ _ c := e in c.

(** [issubclass(c, name)] *)
Definition issubclass (c : pyclass) (name : string) : bool :=
  String.eqb (cls_name c) name
  || existsb (String.eqb name) (cls_ancestors c).

(** [isinstance(e, name)]: what [except name] tests. *)
Definition isinstance (e : exn) (name : string) : bool :=
  issubclass (exn_class e) name.

(** [raise new from e] *)
Definition raise_from (new e : exn) : exn :=
  let 'Exn c a k _ := new in Exn c a k (Some e).

(** Built-in classes. *)
Definition builtin_exception (name : string) : pyclass :=
  PyClass name ["Exception"; "BaseException"].

Definition TypeError_cls : pyclass := builtin_exception "TypeError".
Definition EOFError_cls : pyclass := builtin_exception "EOFError".
Definition AttributeError_cls : pyclass := builtin_exception "AttributeError".
Definition ConnectionError_cls : pyclass :=
  PyClass "ConnectionError" ["OSError"; "Exception"; "BaseException"].
Definition KeyboardInterrupt_cls : pyclass :=
  PyClass "KeyboardInterrupt" ["BaseException"].

(** Classes of the [pickle] module. *)
Definition PicklingError_cls : pyclass :=
  PyClass "PicklingError" ["PickleError"; "Exception"; "BaseException"].
Definition UnpicklingError_cls : pyclass :=
  PyClass "UnpicklingError" ["PickleError"; "Exception"; "BaseException"].

(** Classes of [cacheplus.exceptions].  That module is imported, not
    defined, by [value.py]; the orchestration depends on the class names
    and on their being ordinary exceptions. *)
Definition CacheError_cls : pyclass := builtin_exception "CacheError".
Definition ImproperlyConfiguredException_cls : pyclass :=
  builtin_exception "ImproperlyConfiguredException".
Definition UnserializableReturnValueError_cls : pyclass :=
  builtin_exception "UnserializableReturnValueError".
Definition UnhashableParamError_cls : pyclass :=
  builtin_exception "UnhashableParamError".

(** [TypeError(msg)] *)
Definition TypeError (msg : string) : exn :=
  Exn TypeError_cls [PyStr msg] [] None.

(** [CacheError(msg)] *)
Definition CacheError (msg : string) : exn :=
  Exn CacheError_cls [PyStr msg] [] None.

(** [UnserializableReturnValueError(func=func, value=value)] *)
Definition UnserializableReturnValueError (func : string) (value : pyvalue)
  : exn :=
  Exn UnserializableReturnValueError_cls []
      [("func", PyFunction func); ("value", value)] None.

(** ** Outcomes of a Python computation *)

Inductive outcome (A : Type) : Type :=
| Return (a : A)
| Raise (e : exn).
Arguments Return {A} a.
Arguments Raise {A} e.

Definition is_raise {A} (o : outcome A) : bool :=
  match o with Raise _ => true | Return _ => false end.

(** ** Collaborators *)

(** Storage keys are the strings produced by [make_value_key]; they are
    interpolated into error messages as they are. *)
Definition key := string.

(** [expires_in: int | timedelta | None] *)
Inductive expiry : Type :=
| ExpSeconds (n : Z)
| ExpTimedelta (days seconds microseconds : Z).

#[global] Instance expiry_eq_dec : EqDecision expiry.
Proof. solve_decision. Defined.

(** [cacheplus.storage.base.Storage] (and [AsyncStorage], whose methods
    are awaited): [get] answers a payload or [None], [set] stores one.
    Either may raise, and either may change the state [S] of the backend. *)
Class Storage (S : Type) : Type := {
  storage_get : key -> S -> outcome (option bytes) * S;
  storage_set : key -> bytes -> option expiry -> S -> outcome unit * S
}.

(** The two functions of the [pickle] module that the wrapper calls. *)
Record Pickle : Type := {
  pickle_dumps : pyvalue -> outcome bytes;
  pickle_loads : bytes -> outcome pyvalue
}.

(** [type_encoders: Mapping[type, Callable[[Any], bytes]] | None] *)
Definition type_encoders := option (gmap string (pyvalue -> bytes)).

(** A function object as the decorators see it: what [inspect] reports
    about it, and its behaviour over the state [U] of its environment. *)
Record pyfunc (U : Type) : Type := {
  fn_module : string;
  fn_qualname : string;
  fn_params : list string;
  fn_iscoroutine : bool;
  fn_body : list pyvalue -> kwargs -> U -> outcome pyvalue * U
}.
Arguments fn_module {U} _.
Arguments fn_qualname {U} _.
Arguments fn_params {U} _.
Arguments fn_iscoroutine {U} _.
Arguments fn_body {U} _ _ _ _.

(** The two functions imported from [cacheplus._core]. *)
Record Core (U : Type) : Type := {
  make_function_key : pyfunc U -> string;
  make_value_key :
    string -> pyfunc U -> type_encoders -> list pyvalue -> kwargs ->
    outcome key
}.
Arguments make_function_key {U} _ _.
Arguments make_value_key {U} _ _ _ _ _ _.

(** ** Observable events *)

(** What a call of the wrapper does to the outside, in order.  The trace
    is how the development counts executions of the wrapped function and
    reads to and writes from storage. *)
Inductive event : Type :=
| EvIscoroutinefunction (func : string)
| EvFactory (awaited : bool)
| EvAcquire
| EvRelease
| EvGet (k : key)
| EvSet (k : key) (data : bytes) (expires_in : option expiry)
| EvLoads (data : bytes)
| EvDumps (value : pyvalue)
| EvCall (func : string) (args : list pyvalue) (kw : kwargs)
| EvDebug (msg : string).

#[global] Instance event_eq_dec : EqDecision event.
Proof. solve_decision. Defined.

Definition is_call (ev : event) : bool :=
  match ev with EvCall _ _ _ => true | _ => false end.
Definition is_set (ev : event) : bool :=
  match ev with EvSet _ _ _ => true | _ => false end.
Definition is_get (ev : event) : bool :=
  match ev with EvGet _ => true | _ => false end.
Definition is_flavor_check (ev : event) : bool :=
  match ev with EvIscoroutinefunction _ => true | _ => false end.

(** Number of executions of the wrapped function in a trace. *)
Definition executions (tr : list event) : nat :=
  length (List.filter is_call tr).
(** Number of [Storage.set] calls in a trace. *)
Definition writes (tr : list event) : nat :=
  length (List.filter is_set tr).
(** Number of [Storage.get] calls in a trace. *)
Definition reads (tr : list event) : nat :=
  length (List.filter is_get tr).

(** ** The state a call runs in *)

Record world (S U : Type) : Type := World {
  w_storage : S;       (* the backend the storage factory resolves to *)
  w_env : U;           (* whatever the wrapped function reads and writes *)
  w_bound : bool       (* [self._storage is not None] *)
}.
Arguments World {S U} _ _ _.
Arguments w_storage {S U} _.
Arguments w_env {S U} _.
Arguments w_bound {S U} _.

(** Python statements: a state transformer that returns or raises and
    leaves the events it caused. *)
Definition M (S U A : Type) : Type :=
  world S U -> outcome A * world S U * list event.

#[global] Instance M_ret {S U} : MRet (M S U) :=
  fun A a w => (Return a, w, []).

#[global] Instance M_bind {S U} : MBind (M S U) :=
  fun A B k m w =>
    match m w with
    | (Return a, w1, tr1) =>
        let '(r, w2, tr2) := k a w1 in (r, w2, tr1 ++ tr2)
    | (Raise e, w1, tr1) => (Raise e, w1, tr1)
    end.

Section Statements.
Context {S U : Type}.

(** [raise e] *)
Definition raise {A} (e : exn) : M S U A := fun w => (Raise e, w, []).

(** The value or exception of a call without effects. *)
Definition lift {A} (o : outcome A) : M S U A := fun w => (o, w, []).

Definition emit (ev : event) : M S U unit := fun w => (Return tt, w, [ev]).

(** The [except] clauses of a [try]: the first clause naming a class of
    the exception handles it; with none, the exception propagates. *)
Fixpoint dispatch {A} (clauses : list (list string * (exn -> M S U A)))
    (e : exn) : M S U A :=
  match clauses with
  | [] => raise e
  | (names, handler) :: rest =>
      if existsb (isinstance e) names then handler e
      else dispatch rest e
  end.

(** [try: m  except ...: ...] *)
Definition try_ {A} (m : M S U A)
    (clauses : list (list string * (exn -> M S U A))) : M S U A :=
  fun w =>
    match m w with
    | (Return a, w1, tr1) => (Return a, w1, tr1)
    | (Raise e, w1, tr1) =>
        let '(r, w2, tr2) := dispatch clauses e w1 in (r, w2, tr1 ++ tr2)
    end.

(** [await m]: in a run without other tasks the awaited operation runs
    to completion where it is awaited. *)
Definition await {A} (m : M S U A) : M S U A := m.

(** [_LOGGER.debug(msg, func)] *)
Definition debug (msg : string) : M S U unit := emit (EvDebug msg).

End Statements.

(** ** The concurrency gate *)

(** [_NullLock()], or a real lock ([threading.Lock()], [anyio.Lock()]). *)
Inductive lock : Type := NullLock | Lock.

Section Gate.
Context {S U : Type}.

(** [with lock: body] (and [async with lock: body]).  [_NullLock]'s
    enter and exit do nothing.  A real lock is taken on entry and given
    back on every exit, normal or exceptional.  The runs of this
    development are sequences of calls, one after the other, in which the
    wrapped function has no access to its own wrapper: no call arrives
    while another holds the lock, so the state carries no lock and the
    acquisition never waits. *)
Definition with_ {A} (l : lock) (body : M S U A) : M S U A :=
  match l with
  | NullLock => body
  | Lock =>
      fun w =>
        let '(r, w1, tr) := body w in
        (r, w1, EvAcquire :: tr ++ [EvRelease])
  end.

End Gate.

(** ** Calls to the collaborators *)

Section Calls.
Context {S U : Type} `{Storage S}.

Definition set_storage (s : S) (w : world S U) : world S U :=
  World s (w_env w) (w_bound w).
Definition set_env (u : U) (w : world S U) : world S U :=
  World (w_storage w) u (w_bound w).
Definition set_bound (b : bool) (w : world S U) : world S U :=
  World (w_storage w) (w_env w) b.

(** [storage.get(key)] *)
Definition get (k : key) : M S U (option bytes) :=
  fun w =>
    let '(r, s) := storage_get k (w_storage w) in
    (r, set_storage s w, [EvGet k]).

(** [storage.set(key, data, expires_in=expires_in)] *)
Definition set (k : key) (data : bytes) (expires_in : option expiry)
  : M S U unit :=
  fun w =>
    let '(r, s) := storage_set k data expires_in (w_storage w) in
    (r, set_storage s w, [EvSet k data expires_in]).

(** [pickle.loads(data)] *)
Definition loads (pickle : Pickle) (data : bytes) : M S U pyvalue :=
  fun w => (pickle_loads pickle data, w, [EvLoads data]).

(** [pickle.dumps(value)] *)
Definition dumps (pickle : Pickle) (value : pyvalue) : M S U bytes :=
  fun w => (pickle_dumps pickle value, w, [EvDumps value]).

(** [value = func( *args, **kwargs )] *)
Definition call (func : pyfunc U) (args : list pyvalue) (kw : kwargs)
  : M S U pyvalue :=
  fun w =>
    let '(r, u) := fn_body func args kw (w_env w) in
    (r, set_env u w, [EvCall (fn_qualname func) args kw]).

End Calls.

(** ** The decorators *)

(** The first statement of either wrapper: when [self._storage] is
    still [None], call [self._factory()] and record what it answers in
    [self._storage]; reuse [self._storage] otherwise.  The factory may
    raise: the exception leaves the call there and [self._storage] stays
    [None].  [awaited] tells whether the factory is a coroutine function
    that is awaited. *)
Definition bind_storage {S U : Type} (factory : S -> outcome unit * S)
    (awaited : bool) : M S U unit :=
  fun w =>
    if w_bound w then (Return tt, w, [])
    else
      let '(r, s) := factory (w_storage w) in
      match r with
      | Return _ =>
          (Return tt, set_bound true (set_storage s w), [EvFactory awaited])
      | Raise e => (Raise e, set_storage s w, [EvFactory awaited])
      end.

(** [class cache_value] *)
Module cache_value.

(** The attributes [__init__] stores on [self]; [self._storage] lives
    in the [world].  [_factory] is the storage factory as the wrapper
    calls it: it answers or raises, and may change the backend. *)
Record t (S : Type) : Type := {
  _factory : S -> outcome unit * S;
  _type_encoders : type_encoders;
  _expires_in : option expiry;
  _serialize : bool
}.
Arguments _factory {S} _ _.
Arguments _type_encoders {S} _.
Arguments _expires_in {S} _.
Arguments _serialize {S} _.

Section Decorator.
Context {S U : Type} `{Storage S} (pickle : Pickle) (core : Core U).

(** [def wrapper( *args, **kwargs )], closed over [self], [func],
    [function_key] and [lock]. *)
Definition wrapper (self : t S) (func : pyfunc U) (function_key : string)
    (lock : lock) (args : list pyvalue) (kw : kwargs) : M S U pyvalue :=
  bind_storage (_factory self) false ;;
  with_ lock (
    key ← lift (make_value_key core function_key func
                  (_type_encoders self) args kw);
    data ← try_ (get key)
      [ (["ImproperlyConfiguredException"], fun e => raise e);
        (["Exception"], fun e =>
           raise (raise_from
             (CacheError ("An error occurred while getting " +:+ key
                          +:+ " from storage")) e)) ];
    match data with
    | Some data =>
        debug "Cache hit: %s" ;;
        try_ (loads pickle data)
          [ (["UnpicklingError"], fun e =>
               raise (raise_from
                 (CacheError ("Failed to unpickle " +:+ key)) e)) ]
    | None =>
        debug "Cache miss: %s" ;;
        value ← call func args kw;
        data ← try_ (dumps pickle value)
          [ (["TypeError"; "PicklingError"], fun e =>
               raise (raise_from
                 (UnserializableReturnValueError (fn_qualname func) value)
                 e)) ];
        try_ (set key data (_expires_in self))
          [ (["Exception"], fun e =>
               raise (raise_from
                 (CacheError ("An error occurred while saving " +:+ key
                              +:+ " to storage")) e)) ] ;;
        mret value
    end).

(** [def __call__(self, func)]: the decoration.  It answers the
    wrapper, or raises. *)
Definition __call__ (self : t S) (func : pyfunc U)
  : outcome (list pyvalue -> kwargs -> M S U pyvalue) * list event :=
  if fn_iscoroutine func then
    (Raise (TypeError
       ("'cache_value' cannot wrap a coroutine. If this is an asyncronous "
        +:+ "function/method, use 'async_cache_value'")),
     [EvIscoroutinefunction (fn_qualname func)])
  else
    let function_key := make_function_key core func in
    let lock := if _serialize self then Lock else NullLock in
    (Return (wrapper self func function_key lock),
     [EvIscoroutinefunction (fn_qualname func)]).

End Decorator.
End cache_value.

(** [class async_cache_value] *)
Module async_cache_value.

Record t (S : Type) : Type := {
  _factory : S -> outcome unit * S;
  _type_encoders : type_encoders;
  _expires_in : option expiry;
  _serialize : bool;
  _is_async : bool     (* [inspect.iscoroutinefunction(self._factory)] *)
}.
Arguments _factory {S} _ _.
Arguments _type_encoders {S} _.
Arguments _expires_in {S} _.
Arguments _serialize {S} _.
Arguments _is_async {S} _.

Section Decorator.
Context {S U : Type} `{Storage S} (pickle : Pickle) (core : Core U).

(** [async def wrapper( *args, **kwargs )] *)
Definition wrapper (self : t S) (func : pyfunc U) (function_key : string)
    (lock : lock) (args : list pyvalue) (kw : kwargs) : M S U pyvalue :=
  (if _is_async self then await (bind_storage (_factory self) true)
   else bind_storage (_factory self) false) ;;
  with_ lock (
    key ← lift (make_value_key core function_key func
                  (_type_encoders self) args kw);
    data ← try_ (await (get key))
      [ (["ImproperlyConfiguredException"], fun e => raise e);
        (["Exception"], fun e =>
           raise (raise_from
             (CacheError ("An error occurred while getting " +:+ key
                          +:+ " from storage")) e)) ];
    match data with
    | Some data =>
        debug "Cache hit: %s" ;;
        try_ (loads pickle data)
          [ (["UnpicklingError"], fun e =>
               raise (raise_from
                 (CacheError ("Failed to unpickle " +:+ key)) e)) ]
    | None =>
        debug "Cache miss: %s" ;;
        value ← await (call func args kw);
        data ← try_ (dumps pickle value)
          [ (["TypeError"; "PicklingError"], fun e =>
               raise (raise_from
                 (UnserializableReturnValueError (fn_qualname func) value)
                 e)) ];
        try_ (await (set key data (_expires_in self)))
          [ (["Exception"], fun e =>
               raise (raise_from
                 (CacheError ("An error occurred while saving " +:+ key
                              +:+ " to storage")) e)) ] ;;
        mret value
    end).

(** [def __call__(self, func)] *)
Definition __call__ (self : t S) (func : pyfunc U)
  : outcome (list pyvalue -> kwargs -> M S U pyvalue) * list event :=
  if negb (fn_iscoroutine func) then
    (Raise (TypeError
       ("'async_cache_value' must wrap a coroutine. If this is a syncronous "
        +:+ "function/method, use 'cache_value'")),
     [EvIscoroutinefunction (fn_qualname func)])
  else
    let function_key := make_function_key core func in
    let lock := if _serialize self then Lock else NullLock in
    (Return (wrapper self func function_key lock),
     [EvIscoroutinefunction (fn_qualname func)]).

End Decorator.
End async_cache_value.

(** ** Both flavours at once *)

(** The two decorator forms. *)
Inductive flavor : Type := Blocking | Suspending.

#[global] Instance flavor_eq_dec : EqDecision flavor.
Proof. solve_decision. Defined.

(** The options both [__init__] methods take, next to the storage
    factory.  [factory_is_coroutine] is what [async_cache_value] records
    in [self._is_async]; [cache_value] has no use for it. *)
Record options : Type := {
  opt_type_encoders : type_encoders;
  opt_expires_in : option expiry;
  opt_serialize : bool;
  factory_is_coroutine : bool
}.

Definition cache_value_init {S} (factory : S -> outcome unit * S)
    (o : options) : cache_value.t S :=
  {| cache_value._factory := factory;
     cache_value._type_encoders := opt_type_encoders o;
     cache_value._expires_in := opt_expires_in o;
     cache_value._serialize := opt_serialize o |}.

Definition async_cache_value_init {S} (factory : S -> outcome unit * S)
    (o : options) : async_cache_value.t S :=
  {| async_cache_value._factory := factory;
     async_cache_value._type_encoders := opt_type_encoders o;
     async_cache_value._expires_in := opt_expires_in o;
     async_cache_value._serialize := opt_serialize o;
     async_cache_value._is_async := factory_is_coroutine o |}.

(** A storage factory that answers: it hands out the backend as it is. *)
Definition resolved {S : Type} (s : S) : outcome unit * S := (Return tt, s).

Section Flavours.
Context {S U : Type} `{Storage S} (pickle : Pickle) (core : Core U).

(** The wrapper of either decorator, over the storage factory given to
    the decorator. *)
Definition wrapper_with (factory : S -> outcome unit * S) (fl : flavor)
    (o : options) (func : pyfunc U) (function_key : string) (lk : lock)
    (args : list pyvalue) (kw : kwargs) : M S U pyvalue :=
  match fl with
  | Blocking =>
      cache_value.wrapper pickle core (cache_value_init factory o)
        func function_key lk args kw
  | Suspending =>
      async_cache_value.wrapper pickle core
        (async_cache_value_init factory o) func function_key lk args kw
  end.

(** [@cache_value(...)] or [@async_cache_value(...)] applied to [func]. *)
Definition decorate_with (factory : S -> outcome unit * S) (fl : flavor)
    (o : options) (func : pyfunc U)
  : outcome (list pyvalue -> kwargs -> M S U pyvalue) * list event :=
  match fl with
  | Blocking =>
      cache_value.__call__ pickle core (cache_value_init factory o) func
  | Suspending =>
      async_cache_value.__call__ pickle core
        (async_cache_value_init factory o) func
  end.

(** The wrapper and the decoration where the storage factory answers,
    as [memory_storage_factory] does: what happens from the lookup on
    does not depend on the factory, and this is the wrapper those
    properties are stated on.  What a call does when the factory raises
    is stated on [wrapper_with]. *)
Definition wrapper (fl : flavor) (o : options) (func : pyfunc U)
    (function_key : string) (lk : lock) (args : list pyvalue) (kw : kwargs)
  : M S U pyvalue :=
  wrapper_with resolved fl o func function_key lk args kw.

Definition decorate (fl : flavor) (o : options) (func : pyfunc U)
  : outcome (list pyvalue -> kwargs -> M S U pyvalue) * list event :=
  decorate_with resolved fl o func.

End Flavours.

(** ** Reading a run *)

Definition result {S U A} (run : outcome A * world S U * list event)
  : outcome A := run.1.1.
Definition final {S U A} (run : outcome A * world S U * list event)
  : world S U := run.1.2.
Definition trace {S U A} (run : outcome A * world S U * list event)
  : list event := run.2.

(** The events of a critical section as the gate brackets them. *)
Definition gated (lk : lock) (tr : list event) : list event :=
  match lk with
  | NullLock => tr
  | Lock => EvAcquire :: tr ++ [EvRelease]
  end.

(** Whether the wrapper of this flavour awaits the factory. *)
Definition awaits (fl : flavor) (o : options) : bool :=
  match fl with
  | Blocking => false
  | Suspending => factory_is_coroutine o
  end.

(** The event of the storage binding, when the call has to bind. *)
Definition binding (fl : flavor) (o : options) {S U} (w : world S U)
  : list event :=
  if w_bound w then []
  else match fl with
       | Blocking => [EvFactory false]
       | Suspending => [EvFactory (factory_is_coroutine o)]
       end.

(** The world a call leaves once storage is bound: the backend and the
    environment as the collaborators left them. *)
Definition settle {S U} (s : S) (u : U) : world S U := World s u true.

(** [msg] mentions [x]. *)
Definition mentions (msg x : string) : Prop :=
  exists p q : string, msg = p +:+ x +:+ q.

(** What the [except] clauses around [storage.get] make of a failure. *)
Definition get_failure (k : key) (e : exn) : exn :=
  if isinstance e "ImproperlyConfiguredException" then e
  else if isinstance e "Exception" then
    raise_from (CacheError ("An error occurred while getting " +:+ k
                            +:+ " from storage")) e
  else e.

(** What the [except] clause around [pickle.loads] makes of a failure. *)
Definition loads_failure (k : key) (e : exn) : exn :=
  if isinstance e "UnpicklingError" then
    raise_from (CacheError ("Failed to unpickle " +:+ k)) e
  else e.

(** What the [except] clause around [pickle.dumps] makes of a failure. *)
Definition dumps_failure (func : string) (value : pyvalue) (e : exn) : exn :=
  if isinstance e "TypeError" || isinstance e "PicklingError" then
    raise_from (UnserializableReturnValueError func value) e
  else e.

(** What the [except] clause around [storage.set] makes of a failure. *)
Definition set_failure (k : key) (e : exn) : exn :=
  if isinstance e "Exception" then
    raise_from (CacheError ("An error occurred while saving " +:+ k
                            +:+ " to storage")) e
  else e.

(** ** The key deriver of [cacheplus._core] *)

Module core_model.
Section Deriver.
Context {U : Type}.

(** What section 4.2 leaves to the runtime: whether a type has a native
    hashable representation, that representation, and the function that
    folds the identity and the representations into one key. *)
Variable natively_hashable : string -> bool.
Variable native_repr : pyvalue -> bytes.
Variable digest : list (string * bytes) -> string.

(** Modelled from the spec: [UnhashableParamError] of
    [cacheplus.exceptions] (not among the sources), sections 4.2 and 7: it
    names the offending parameter and its type. *)
Definition UnhashableParamError (param type : string) : exn :=
  Exn UnhashableParamError_cls []
      [("param", PyStr param); ("type", PyStr type)] None.

(** Modelled from the spec: [make_function_key] of [cacheplus._core]
    (not among the sources): the identity of a function, from its
    defining scope and qualified name and nothing else. *)
Definition make_function_key (func : pyfunc U) : string :=
  fn_module func +:+ "." +:+ fn_qualname func.

(** Modelled from the spec: the lookup in [type_encoders] that
    [make_value_key] does, by exact type. *)
Definition encoder_for (enc : type_encoders) (type : string)
  : option (pyvalue -> bytes) :=
  match enc with
  | Some m => m !! type
  | None => None
  end.

(** Modelled from the spec: the hashable representation
    [make_value_key] gives one argument, native when its runtime type has
    one, through the encoder registered for exactly its type otherwise. *)
Definition hashable_repr (enc : type_encoders) (v : pyvalue)
  : option bytes :=
  if natively_hashable (type_of v) then Some (native_repr v)
  else (fun f => f v) <$> encoder_for enc (type_of v).

(** Modelled from the spec: the arguments as [make_value_key] goes
    through them, the positional ones under the names of the signature, in
    order, then the keyword ones as a set: unique by name, in an order
    that does not depend on the call's. *)
Definition named_arguments (func : pyfunc U) (args : list pyvalue)
    (kw : kwargs) : list (string * pyvalue) :=
  imap (fun i v => (nth i (fn_params func) "*args", v)) args
  ++ map_to_list (list_to_map kw : gmap string pyvalue).

(** Modelled from the spec: the loop of [make_value_key] over the
    arguments; it stops at the first one without a representation. *)
Fixpoint encode_arguments (enc : type_encoders)
    (named : list (string * pyvalue)) : outcome (list (string * bytes)) :=
  match named with
  | [] => Return []
  | (name, v) :: rest =>
      match hashable_repr enc v with
      | None => Raise (UnhashableParamError name (type_of v))
      | Some h =>
          match encode_arguments enc rest with
          | Return hs => Return ((name, h) :: hs)
          | Raise e => Raise e
          end
      end
  end.

(** Modelled from the spec: [make_value_key] of [cacheplus._core]
    (not among the sources), section 4.2: every positional and keyword
    argument is given a hashable representation, the first one that
    has none fails the derivation with [UnhashableParamError], and the
    identity and the representations are combined into the key. *)
Definition make_value_key (function_key : string) (func : pyfunc U)
    (enc : type_encoders) (args : list pyvalue) (kw : kwargs)
  : outcome key :=
  match encode_arguments enc (named_arguments func args kw) with
  | Return hs => Return (function_key +:+ "-" +:+ digest hs)
  | Raise e => Raise e
  end.

Definition core : Core U :=
  Build_Core U make_function_key make_value_key.

End Deriver.
End core_model.

(** ** Collaborators for the scenarios *)

Module scenario.

(** Modelled from the spec: the in-memory backend behind
    [memory_storage_factory] ([cacheplus.factories] and
    [cacheplus.storage] are not among the sources), section 6: [get]
    answers the payload last set under the key or the absent marker,
    [set] records the payload with its retention.  A fault planted in
    [get_fault] or [set_fault] is raised by the operation instead, as an
    unreachable or misconfigured backend would. *)
Record backend : Type := {
  entries : gmap string (bytes * option expiry);
  get_fault : option exn;
  set_fault : option exn
}.

#[global] Instance backend_storage : Storage backend := {
  storage_get k s :=
    match get_fault s with
    | Some e => (Raise e, s)
    | None => (Return (fst <$> (entries s !! k)), s)
    end;
  storage_set k data expires_in s :=
    match set_fault s with
    | Some e => (Raise e, s)
    | None =>
        (Return tt,
         {| entries := <[k := (data, expires_in)]> (entries s);
            get_fault := get_fault s;
            set_fault := set_fault s |})
    end
}.

(** [memory_storage_factory()]: it answers, and the backend is as it
    was. *)
Definition memory_storage_factory : backend -> outcome unit * backend :=
  resolved.

(** A factory that cannot reach its backend and raises [e]. *)
Definition unavailable (e : exn) (s : backend) : outcome unit * backend :=
  (Raise e, s).

Definition empty_backend : backend :=
  {| entries := ∅; get_fault := None; set_fault := None |}.

(** A backend that holds [data] under [k]. *)
Definition holding (k : key) (data : bytes) : backend :=
  {| entries := {[ k := (data, None) ]};
     get_fault := None; set_fault := None |}.

(** A backend whose [get] raises [e]. *)
Definition unreadable (e : exn) : backend :=
  {| entries := ∅; get_fault := Some e; set_fault := None |}.

(** A backend whose [set] raises [e]. *)
Definition unwritable (e : exn) : backend :=
  {| entries := ∅; get_fault := None; set_fault := Some e |}.

Definition connection_refused : exn :=
  Exn ConnectionError_cls [PyStr "connection refused"] [] None.

Definition improperly_configured : exn :=
  Exn ImproperlyConfiguredException_cls [PyStr "missing dependency"] []
      None.

(** Ctrl-C while the backend is being read: not an [Exception]. *)
Definition interrupted : exn := Exn KeyboardInterrupt_cls [] [] None.

Definition invalid_load_key : exn :=
  Exn UnpicklingError_cls [PyStr "invalid load key"] [] None.

(** A codec with the failure modes of [pickle]: one opcode per scalar
    type, and every scalar round-trips; an object that wraps an open file
    is refused with [TypeError], a function that cannot be found by name
    with [PicklingError], an object of a local class with
    [AttributeError]; an empty payload ends the input ([EOFError]) and
    anything else that cannot be read is an [UnpicklingError]. *)
Definition pickle : Pickle := {|
  pickle_dumps v :=
    match v with
    | PyNone => Return ["N"%byte; "."%byte]
    | PyBool true => Return ["T"%byte; "."%byte]
    | PyBool false => Return ["F"%byte; "."%byte]
    | PyInt z => Return ("I"%byte :: list_byte_of_string (pretty z))
    | PyStr s => Return ("V"%byte :: list_byte_of_string s)
    | PyBytes b => Return ("B"%byte :: b)
    | PyFunction q =>
        Raise (Exn PicklingError_cls [PyStr ("Can't pickle " +:+ q)] [] None)
    | PyObject "_TemporaryFileWrapper" _ =>
        Raise (TypeError "cannot pickle '_io.BufferedRandom' object")
    | PyObject cls _ =>
        Raise (Exn AttributeError_cls
                 [PyStr ("Can't pickle local object " +:+ cls)] [] None)
    end;
  pickle_loads d :=
    match d with
    | [] => Raise (Exn EOFError_cls [PyStr "Ran out of input"] [] None)
    | ["N"%byte; "."%byte] => Return PyNone
    | ["T"%byte; "."%byte] => Return (PyBool true)
    | ["F"%byte; "."%byte] => Return (PyBool false)
    | "I"%byte :: rest =>
        match NilZero.int_of_string (string_of_list_byte rest) with
        | Some n => Return (PyInt (Z.of_int n))
        | None => Raise invalid_load_key
        end
    | "V"%byte :: rest => Return (PyStr (string_of_list_byte rest))
    | "B"%byte :: rest => Return (PyBytes rest)
    | _ => Raise invalid_load_key
    end
|}.

(** The environment of the scenario functions: a call counter, as a
    mock keeps it. *)
Definition env := nat.

(** [def call_mock(): return mock()] with
    [mock = MagicMock(return_value="pickleable")] *)
Definition call_mock : pyfunc env := {|
  fn_module := "tests.test_value";
  fn_qualname := "call_mock";
  fn_params := [];
  fn_iscoroutine := false;
  fn_body _ _ n := (Return (PyStr "pickleable"), Datatypes.S n)
|}.

(** The same behind [async def]. *)
Definition async_call_mock : pyfunc env := {|
  fn_module := "tests.test_value";
  fn_qualname := "call_mock";
  fn_params := [];
  fn_iscoroutine := true;
  fn_body _ _ n := (Return (PyStr "pickleable"), Datatypes.S n)
|}.

(** [def constant(): return "pickleable"], a pure function. *)
Definition constant : pyfunc env := {|
  fn_module := "tests.test_value";
  fn_qualname := "constant";
  fn_params := [];
  fn_iscoroutine := false;
  fn_body _ _ n := (Return (PyStr "pickleable"), n)
|}.

(** [def nothing(x): return None] *)
Definition nothing : pyfunc env := {|
  fn_module := "tests.test_value";
  fn_qualname := "nothing";
  fn_params := ["x"];
  fn_iscoroutine := false;
  fn_body _ _ n := (Return PyNone, Datatypes.S n)
|}.

(** [def not_picklable(): with tempfile.TemporaryFile() as tf: return tf] *)
Definition not_picklable : pyfunc env := {|
  fn_module := "tests.test_value";
  fn_qualname := "not_picklable";
  fn_params := [];
  fn_iscoroutine := false;
  fn_body _ _ n :=
    (Return (PyObject "_TemporaryFileWrapper" "closed"), Datatypes.S n)
|}.

(** [def make_local(): class Local: pass; return Local()] *)
Definition make_local : pyfunc env := {|
  fn_module := "tests.test_value";
  fn_qualname := "make_local";
  fn_params := [];
  fn_iscoroutine := false;
  fn_body _ _ n := (Return (PyObject "make_local.<locals>.Local" ""), n)
|}.

(** [def failing(): raise ValueError("boom")] *)
Definition boom : exn :=
  Exn (builtin_exception "ValueError") [PyStr "boom"] [] None.

Definition failing : pyfunc env := {|
  fn_module := "tests.test_value";
  fn_qualname := "failing";
  fn_params := [];
  fn_iscoroutine := false;
  fn_body _ _ n := (Raise boom, Datatypes.S n)
|}.

(** [def call_fail(conn: HTTPConnection): pass] *)
Definition call_fail : pyfunc env := {|
  fn_module := "tests.test_value";
  fn_qualname := "call_fail";
  fn_params := ["conn"];
  fn_iscoroutine := false;
  fn_body _ _ n := (Return PyNone, Datatypes.S n)
|}.

(** The scalar types are natively hashable, instances of other classes
    and functions are not. *)
Definition natively_hashable (type : string) : bool :=
  bool_decide (type ∈ ["NoneType"; "bool"; "int"; "str"; "bytes"]).

Definition native_repr (v : pyvalue) : bytes :=
  match v with
  | PyStr s => list_byte_of_string s
  | PyBytes b => b
  | PyBool true => ["1"%byte]
  | PyBool false => ["0"%byte]
  | PyInt z => list_byte_of_string (pretty z)
  | _ => []
  end.

Definition digest (hs : list (string * bytes)) : string :=
  String.concat ","
    (map (fun '(n, h) => n +:+ "=" +:+ string_of_list_byte h) hs).

Definition core : Core env :=
  core_model.core natively_hashable native_repr digest.

Definition defaults : options := {|
  opt_type_encoders := None;
  opt_expires_in := None;
  opt_serialize := false;
  factory_is_coroutine := false
|}.

(** The state before the first call. *)
Definition fresh (s : backend) : world backend env := World s 0 false.

(** The value the mock returns, its payload, and the payload of [None]. *)
Definition v_pickleable : pyvalue := PyStr "pickleable".
Definition d_pickleable : bytes :=
  "V"%byte :: list_byte_of_string "pickleable".
Definition d_none : bytes := ["N"%byte; "."%byte].

(** [HTTPConnection("google.com")] *)
Definition conn : pyvalue := PyObject "HTTPConnection" "google.com:80".

End scenario.
(** ** Callers and further readings of a trace *)

Definition is_factory (ev : event) : bool :=
  match ev with EvFactory _ => true | _ => false end.

(** The same event with the factory called rather than awaited. *)
Definition forget_await (ev : event) : event :=
  match ev with EvFactory _ => EvFactory false | _ => ev end.


(** The event touches storage under no key but [k]. *)
Definition touches_only (k : key) (ev : event) : Prop :=
  match ev with
  | EvGet k' => k' = k
  | EvSet k' _ _ => k' = k
  | _ => True
  end.

(** A caller that makes the same call [n] times in sequence, as the tests
    do twice: the outcomes in order, the state left, and all events. *)
Fixpoint call_repeatedly {S U A} (n : nat) (m : M S U A) (w : world S U)
  : list (outcome A) * world S U * list event :=
  match n with
  | O => ([], w, [])
  | Datatypes.S n' =>
      let '(r, w1, tr1) := m w in
      let '(rs, w2, tr2) := call_repeatedly n' m w1 in
      (r :: rs, w2, tr1 ++ tr2)
  end.

(* ===================================================================== *)
(** * Part II: properties                                                  *)
(* ===================================================================== *)

(** ** The paths through a call *)

Ltac unfold_wrapper :=
  cbv [wrapper cache_value.wrapper async_cache_value.wrapper
       cache_value_init async_cache_value_init
       cache_value._type_encoders cache_value._expires_in
       async_cache_value._type_encoders async_cache_value._expires_in
       async_cache_value._is_async
       wrapper_with resolved cache_value._factory async_cache_value._factory
       mbind M_bind mret M_ret bind_storage with_ lift try_ dispatch await
       raise emit debug get set loads dumps call existsb
       set_bound set_storage set_env
       w_storage w_env w_bound
       binding gated settle app].

(** Split on everything a path depends on besides the collaborators:
    the flavour, the gate, whether storage is bound already and whether
    the factory is awaited. *)
Ltac split_call w fl lk o :=
  let Ef := fresh "Ef" in
  destruct w as [? ? []], fl, lk, (factory_is_coroutine o) eqn:Ef;
  simpl in *; intros.

(** Feed the answers of the collaborators to the unfolded wrapper. *)
Ltac rewrite_calls :=
  repeat (match goal with Hx : _ = _ |- _ => rewrite Hx end;
          cbv beta iota).

Section Paths.
Context {S U : Type} `{Storage S} (pickle : Pickle) (core : Core U).
Variables (fl : flavor) (o : options) (func : pyfunc U).
Variables (function_key : string) (lk : lock).
Variables (args : list pyvalue) (kw : kwargs).

(** The key cannot be derived: nothing else happens. *)
Lemma path_key_error (w : world S U) (e : exn) :
  make_value_key core function_key func (opt_type_encoders o) args kw
    = Raise e ->
  wrapper pickle core fl o func function_key lk args kw w =
    (Raise e, settle (w_storage w) (w_env w),
     binding fl o w ++ gated lk []).
Proof.
  split_call w fl lk o; unfold_wrapper;
    rewrite_calls;
    reflexivity.
Qed.

(** [storage.get] raises. *)
Lemma path_get_error (w : world S U) (k : key) (e : exn) (s1 : S) :
  make_value_key core function_key func (opt_type_encoders o) args kw
    = Return k ->
  storage_get k (w_storage w) = (Raise e, s1) ->
  wrapper pickle core fl o func function_key lk args kw w =
    (Raise (get_failure k e), settle s1 (w_env w),
     binding fl o w ++ gated lk [EvGet k]).
Proof.
  split_call w fl lk o; unfold_wrapper; unfold get_failure;
    rewrite_calls;
    rewrite ?orb_false_r;
    destruct (isinstance e "ImproperlyConfiguredException");
    try destruct (isinstance e "Exception"); reflexivity.
Qed.

(** [storage.get] answers a payload: the call ends with [pickle.loads]. *)
Lemma path_hit (w : world S U) (k : key) (d : bytes) (s1 : S) :
  make_value_key core function_key func (opt_type_encoders o) args kw
    = Return k ->
  storage_get k (w_storage w) = (Return (Some d), s1) ->
  wrapper pickle core fl o func function_key lk args kw w =
    (match pickle_loads pickle d with
     | Return v => Return v
     | Raise e => Raise (loads_failure k e)
     end,
     settle s1 (w_env w),
     binding fl o w
       ++ gated lk [EvGet k; EvDebug "Cache hit: %s"; EvLoads d]).
Proof.
  split_call w fl lk o; unfold_wrapper; unfold loads_failure;
    rewrite_calls;
    destruct (pickle_loads pickle d) as [v|e]; try reflexivity;
    rewrite ?orb_false_r; destruct (isinstance e "UnpicklingError");
    reflexivity.
Qed.

(** A miss, and the wrapped function raises. *)
Lemma path_func_error (w : world S U) (k : key) (s1 : S) (e : exn) (u1 : U) :
  make_value_key core function_key func (opt_type_encoders o) args kw
    = Return k ->
  storage_get k (w_storage w) = (Return None, s1) ->
  fn_body func args kw (w_env w) = (Raise e, u1) ->
  wrapper pickle core fl o func function_key lk args kw w =
    (Raise e, settle s1 u1,
     binding fl o w
       ++ gated lk [EvGet k; EvDebug "Cache miss: %s";
                    EvCall (fn_qualname func) args kw]).
Proof.
  split_call w fl lk o; unfold_wrapper;
    rewrite_calls;
    reflexivity.
Qed.

(** A miss, and [pickle.dumps] raises on the computed value. *)
Lemma path_dumps_error (w : world S U) (k : key) (s1 : S) (v : pyvalue)
    (u1 : U) (e : exn) :
  make_value_key core function_key func (opt_type_encoders o) args kw
    = Return k ->
  storage_get k (w_storage w) = (Return None, s1) ->
  fn_body func args kw (w_env w) = (Return v, u1) ->
  pickle_dumps pickle v = Raise e ->
  wrapper pickle core fl o func function_key lk args kw w =
    (Raise (dumps_failure (fn_qualname func) v e), settle s1 u1,
     binding fl o w
       ++ gated lk [EvGet k; EvDebug "Cache miss: %s";
                    EvCall (fn_qualname func) args kw; EvDumps v]).
Proof.
  split_call w fl lk o; unfold_wrapper; unfold dumps_failure;
    rewrite_calls;
    rewrite ?orb_false_r;
    destruct (isinstance e "TypeError" || isinstance e "PicklingError");
    reflexivity.
Qed.

(** A miss, and [storage.set] raises. *)
Lemma path_set_error (w : world S U) (k : key) (s1 s2 : S) (v : pyvalue)
    (u1 : U) (d : bytes) (e : exn) :
  make_value_key core function_key func (opt_type_encoders o) args kw
    = Return k ->
  storage_get k (w_storage w) = (Return None, s1) ->
  fn_body func args kw (w_env w) = (Return v, u1) ->
  pickle_dumps pickle v = Return d ->
  storage_set k d (opt_expires_in o) s1 = (Raise e, s2) ->
  wrapper pickle core fl o func function_key lk args kw w =
    (Raise (set_failure k e), settle s2 u1,
     binding fl o w
       ++ gated lk [EvGet k; EvDebug "Cache miss: %s";
                    EvCall (fn_qualname func) args kw; EvDumps v;
                    EvSet k d (opt_expires_in o)]).
Proof.
  split_call w fl lk o; unfold_wrapper; unfold set_failure;
    rewrite_calls;
    rewrite ?orb_false_r; destruct (isinstance e "Exception"); reflexivity.
Qed.

(** A miss that ends well: computed, encoded, stored, returned. *)
Lemma path_stored (w : world S U) (k : key) (s1 s2 : S) (v : pyvalue)
    (u1 : U) (d : bytes) :
  make_value_key core function_key func (opt_type_encoders o) args kw
    = Return k ->
  storage_get k (w_storage w) = (Return None, s1) ->
  fn_body func args kw (w_env w) = (Return v, u1) ->
  pickle_dumps pickle v = Return d ->
  storage_set k d (opt_expires_in o) s1 = (Return tt, s2) ->
  wrapper pickle core fl o func function_key lk args kw w =
    (Return v, settle s2 u1,
     binding fl o w
       ++ gated lk [EvGet k; EvDebug "Cache miss: %s";
                    EvCall (fn_qualname func) args kw; EvDumps v;
                    EvSet k d (opt_expires_in o)]).
Proof.
  split_call w fl lk o; unfold_wrapper;
    rewrite_calls;
    reflexivity.
Qed.

End Paths.

(** ** The storage factory *)

Section Factory.
Context {S U : Type} `{Storage S} (pickle : Pickle) (core : Core U).
Variable factory : S -> outcome unit * S.
Variables (fl : flavor) (o : options) (func : pyfunc U).
Variables (function_key : string) (lk : lock).
Variables (args : list pyvalue) (kw : kwargs).

Ltac unfold_binding :=
  unfold wrapper, wrapper_with, cache_value.wrapper,
    async_cache_value.wrapper;
  cbv [mbind M_bind bind_storage await w_bound w_storage set_storage
       set_bound async_cache_value._is_async async_cache_value_init
       cache_value._factory async_cache_value._factory cache_value_init
       resolved w_env].

(** With storage bound the factory is not asked. *)
Lemma factory_skipped (w : world S U) :
  w_bound w = true ->
  wrapper_with pickle core factory fl o func function_key lk args kw w
  = wrapper pickle core fl o func function_key lk args kw w.
Proof.
  destruct w as [s u b]; simpl; intros ->.
  destruct fl, (factory_is_coroutine o) eqn:Ef; unfold_binding;
    rewrite ?Ef; reflexivity.
Qed.

(** When the factory answers, the call goes on as the call of a wrapper
    whose factory answers, on the backend the factory left. *)
Lemma factory_answers (w : world S U) (s0 : S) :
  w_bound w = false ->
  factory (w_storage w) = (Return tt, s0) ->
  wrapper_with pickle core factory fl o func function_key lk args kw w
  = wrapper pickle core fl o func function_key lk args kw
      (set_storage s0 w).
Proof.
  destruct w as [s u b]; simpl; intros -> Hf.
  destruct fl, (factory_is_coroutine o) eqn:Ef; unfold_binding;
    rewrite ?Ef, Hf; reflexivity.
Qed.

(** When the factory raises, the call ends there. *)
Lemma factory_raises (w : world S U) (e : exn) (s0 : S) :
  w_bound w = false ->
  factory (w_storage w) = (Raise e, s0) ->
  wrapper_with pickle core factory fl o func function_key lk args kw w
  = (Raise e, set_storage s0 w, [EvFactory (awaits fl o)]).
Proof.
  destruct w as [s u b]; simpl; intros -> Hf.
  destruct fl, (factory_is_coroutine o) eqn:Ef; unfold_binding;
    unfold awaits; rewrite ?Ef, Hf; reflexivity.
Qed.

End Factory.

(** ** Counting in traces *)

(** Binding the storage and taking the gate add no event of the kinds
    the properties count. *)
Lemma filter_binding_gated {S U} (f : event -> bool) (fl : flavor)
    (o : options) (w : world S U) (lk : lock) (tr : list event) :
  (forall b, f (EvFactory b) = false) ->
  f EvAcquire = false -> f EvRelease = false ->
  List.filter f (binding fl o w ++ gated lk tr) = List.filter f tr.
Proof.
  intros Hf Ha Hr. rewrite List.filter_app.
  assert (List.filter f (binding fl o w) = []) as ->.
  { unfold binding. destruct (w_bound w), fl; simpl; rewrite ?Hf; reflexivity. }
  destruct lk; simpl; [reflexivity|].
  rewrite Ha, List.filter_app. simpl. rewrite Hr. apply app_nil_r.
Qed.

(** Split a conjunction into its parts, and nothing else. *)
Ltac splits := repeat match goal with |- _ /\ _ => split end.

Ltac count_events :=
  unfold executions, writes, reads;
  rewrite ?filter_binding_gated by (intros; reflexivity);
  simpl; try reflexivity;
  try match goal with |- context [gated ?l _] => destruct l; reflexivity end.

(** ** Hits and misses *)

Section Orchestration.
Context {S U : Type} `{Storage S} (pickle : Pickle) (core : Core U).

(** A function of the right flavour is accepted, and what the
    decoration answers is the wrapper closed over the function's key and
    the gate chosen by [serialize]. *)
Lemma decorate_accepts (fl : flavor) (o : options) (func : pyfunc U) :
  fn_iscoroutine func = bool_decide (fl = Suspending) ->
  fst (decorate pickle core fl o func)
  = Return (wrapper pickle core fl o func (make_function_key core func)
              (if opt_serialize o then Lock else NullLock)).
Proof.
  destruct fl; intros Hfl;
    unfold decorate, decorate_with, cache_value.__call__,
      async_cache_value.__call__;
    rewrite Hfl; reflexivity.
Qed.

(** [raise ... from e] records [e] as the cause and keeps the rest. *)
Lemma raise_from_cause (new e : exn) :
  exn_cause (raise_from new e) = Some e /\
  exn_class (raise_from new e) = exn_class new /\
  exn_args (raise_from new e) = exn_args new /\
  exn_attrs (raise_from new e) = exn_attrs new.
Proof. destruct new; simpl; auto. Qed.

(** A call that computes, encodes and stores is followed by a call that
    only reads and decodes, provided storage answers the second lookup
    with the payload the first call wrote. *)
Lemma miss_then_hit (fl : flavor) (o : options) (func : pyfunc U)
    (function_key : string) (lk : lock) (args : list pyvalue) (kw : kwargs)
    (w : world S U) (k : key) (v : pyvalue) (u1 : U) (d : bytes)
    (s1 s2 s3 : S) :
  make_value_key core function_key func (opt_type_encoders o) args kw
    = Return k ->
  storage_get k (w_storage w) = (Return None, s1) ->
  fn_body func args kw (w_env w) = (Return v, u1) ->
  pickle_dumps pickle v = Return d ->
  storage_set k d (opt_expires_in o) s1 = (Return tt, s2) ->
  storage_get k s2 = (Return (Some d), s3) ->
  pickle_loads pickle d = Return v ->
  let run1 := wrapper pickle core fl o func function_key lk args kw w in
  let run2 :=
    wrapper pickle core fl o func function_key lk args kw (final run1) in
  result run1 = Return v /\
  trace run1 =
    binding fl o w
      ++ gated lk [EvGet k; EvDebug "Cache miss: %s";
                   EvCall (fn_qualname func) args kw; EvDumps v;
                   EvSet k d (opt_expires_in o)] /\
  result run2 = Return v /\
  trace run2 = gated lk [EvGet k; EvDebug "Cache hit: %s"; EvLoads d].
Proof.
  intros Hk Hg Hf Hd Hs Hg2 Hl run1 run2.
  assert (E1 := path_stored pickle core fl o func function_key lk args kw
                  w k s1 s2 v u1 d Hk Hg Hf Hd Hs).
  assert (E2 := path_hit pickle core fl o func function_key lk args kw
                  (settle s2 u1) k d s3 Hk Hg2).
  rewrite Hl in E2.
  subst run1 run2. rewrite E1. unfold final; simpl. rewrite E2.
  unfold result, trace; simpl. auto.
Qed.

(** C1. A pure function without arguments, decorated in either form and
    called twice in sequence: both calls return the same value and the
    function runs once.  The second call finds the payload the first one
    stored, decodes it and returns; it neither runs the function nor
    writes.  (The first lookup misses, the value encodes and decodes back,
    and storage keeps what it is given.) *)
Theorem pure_function_runs_once (fl : flavor) (o : options) (func : pyfunc U)
    (function_key : string) (lk : lock) (w : world S U) (k : key)
    (v : pyvalue) (d : bytes) (s1 s2 s3 : S) :
  make_value_key core function_key func (opt_type_encoders o) [] []
    = Return k ->
  (forall u, fn_body func [] [] u = (Return v, u)) ->
  pickle_dumps pickle v = Return d ->
  pickle_loads pickle d = Return v ->
  storage_get k (w_storage w) = (Return None, s1) ->
  storage_set k d (opt_expires_in o) s1 = (Return tt, s2) ->
  storage_get k s2 = (Return (Some d), s3) ->
  let run1 := wrapper pickle core fl o func function_key lk [] [] w in
  let run2 :=
    wrapper pickle core fl o func function_key lk [] [] (final run1) in
  result run1 = Return v /\ result run2 = Return v /\
  executions (trace run1 ++ trace run2) = 1 /\
  trace run2 = gated lk [EvGet k; EvDebug "Cache hit: %s"; EvLoads d] /\
  executions (trace run2) = 0 /\ writes (trace run2) = 0.
Proof.
  intros Hk Hpure Hd Hl Hg Hs Hg2.
  destruct (miss_then_hit fl o func function_key lk [] [] w k v (w_env w) d
              s1 s2 s3 Hk Hg (Hpure _) Hd Hs Hg2 Hl) as (R1 & T1 & R2 & T2).
  cbv zeta. rewrite R1, R2, T1, T2. splits; try reflexivity.
  - unfold executions. rewrite List.filter_app, length_app.
    change (length (List.filter is_call ?l)) with (executions l).
    assert (executions (binding fl o w ++ gated lk
              [EvGet k; EvDebug "Cache miss: %s";
               EvCall (fn_qualname func) [] []; EvDumps v;
               EvSet k d (opt_expires_in o)]) = 1) as -> by count_events.
    destruct lk; reflexivity.
  - destruct lk; reflexivity.
  - destruct lk; reflexivity.
Qed.

(** C2. On a miss the wrapped function is invoked, once, with the
    positional and keyword arguments of the call as they were given; the
    value it computes is encoded; the payload is handed to [Storage.set]
    under the derived key with the configured [expires_in]; and when the
    write succeeds the call returns the computed value. *)
Theorem miss_computes_stores_returns (fl : flavor) (o : options)
    (func : pyfunc U) (function_key : string) (lk : lock)
    (args : list pyvalue) (kw : kwargs) (w : world S U) (k : key) (s1 : S) :
  make_value_key core function_key func (opt_type_encoders o) args kw
    = Return k ->
  storage_get k (w_storage w) = (Return None, s1) ->
  let run := wrapper pickle core fl o func function_key lk args kw w in
  List.filter is_call (trace run) = [EvCall (fn_qualname func) args kw] /\
  forall (v : pyvalue) (u1 : U),
    fn_body func args kw (w_env w) = (Return v, u1) ->
    In (EvDumps v) (trace run) /\
    forall d : bytes,
      pickle_dumps pickle v = Return d ->
      List.filter is_set (trace run) = [EvSet k d (opt_expires_in o)] /\
      forall s2 : S,
        storage_set k d (opt_expires_in o) s1 = (Return tt, s2) ->
        result run = Return v /\
        w_storage (final run) = s2 /\ w_env (final run) = u1.
Proof.
  intros Hk Hg run. subst run.
  destruct (fn_body func args kw (w_env w)) as [[v|e] u1] eqn:Hf.
  - destruct (pickle_dumps pickle v) as [d|e] eqn:Hd.
    + destruct (storage_set k d (opt_expires_in o) s1) as [[[]|e] s2] eqn:Hs.
      * rewrite (path_stored pickle core fl o func function_key lk args kw
                   w k s1 s2 v u1 d Hk Hg Hf Hd Hs).
        unfold trace, result, final; simpl. split; [count_events|].
        intros v' u' [= <- <-]. split.
        { apply in_or_app. right. destruct lk; simpl; tauto. }
        intros d' Hd'. rewrite Hd in Hd'. injection Hd' as <-.
        split; [count_events|].
        intros s2' Heq. rewrite Hs in Heq. injection Heq as <-.
        destruct lk; auto.
      * rewrite (path_set_error pickle core fl o func function_key lk args kw
                   w k s1 s2 v u1 d e Hk Hg Hf Hd Hs).
        unfold trace, result, final; simpl. split; [count_events|].
        intros v' u' [= <- <-]. split.
        { apply in_or_app. right. destruct lk; simpl; tauto. }
        intros d' Hd'. rewrite Hd in Hd'. injection Hd' as <-.
        split; [count_events|].
        intros s2' Heq. rewrite Hs in Heq. discriminate.
    + rewrite (path_dumps_error pickle core fl o func function_key lk args kw
                 w k s1 v u1 e Hk Hg Hf Hd).
      unfold trace, result, final; simpl. split; [count_events|].
      intros v' u' [= <- <-]. split.
      { apply in_or_app. right. destruct lk; simpl; tauto. }
      intros d' Hd'. rewrite Hd in Hd'. discriminate.
  - rewrite (path_func_error pickle core fl o func function_key lk args kw
               w k s1 e u1 Hk Hg Hf).
    unfold trace; simpl. split; [count_events|]. intros v' u' [=].
Qed.

(** C10. A function that returns [None] is cached like any other: the
    first call writes the payload that encodes [None], storage answers the
    next lookup with that payload (present, not the absent marker), and
    the second call with the same arguments is a hit that returns [None]
    without running the function. *)
Theorem none_result_is_cached (fl : flavor) (o : options) (func : pyfunc U)
    (function_key : string) (lk : lock) (args : list pyvalue) (kw : kwargs)
    (w : world S U) (k : key) (u1 : U) (d : bytes) (s1 s2 s3 : S) :
  make_value_key core function_key func (opt_type_encoders o) args kw
    = Return k ->
  storage_get k (w_storage w) = (Return None, s1) ->
  fn_body func args kw (w_env w) = (Return PyNone, u1) ->
  pickle_dumps pickle PyNone = Return d ->
  storage_set k d (opt_expires_in o) s1 = (Return tt, s2) ->
  storage_get k s2 = (Return (Some d), s3) ->
  pickle_loads pickle d = Return PyNone ->
  let run1 := wrapper pickle core fl o func function_key lk args kw w in
  let run2 :=
    wrapper pickle core fl o func function_key lk args kw (final run1) in
  result run1 = Return PyNone /\
  List.filter is_set (trace run1) = [EvSet k d (opt_expires_in o)] /\
  result run2 = Return PyNone /\
  trace run2 = gated lk [EvGet k; EvDebug "Cache hit: %s"; EvLoads d] /\
  executions (trace run2) = 0.
Proof.
  intros Hk Hg Hf Hd Hs Hg2 Hl.
  destruct (miss_then_hit fl o func function_key lk args kw w k PyNone u1 d
              s1 s2 s3 Hk Hg Hf Hd Hs Hg2 Hl) as (R1 & T1 & R2 & T2).
  cbv zeta. rewrite R1, R2, T1, T2. splits; try reflexivity.
  - rewrite filter_binding_gated by (intros; reflexivity). reflexivity.
  - destruct lk; reflexivity.
Qed.

(** C3. When [Storage.get] fails the call fails: an
    [ImproperlyConfiguredException] reaches the caller as it is, any other
    failure (any other instance of [Exception]) is raised as the cause of
    a [CacheError] whose message names the key and the operation.
    Whatever [Storage.get] raises, the call raises, and the wrapped
    function is not invoked and nothing is written. *)
Theorem get_failure_aborts_call (fl : flavor) (o : options) (func : pyfunc U)
    (function_key : string) (lk : lock) (args : list pyvalue) (kw : kwargs)
    (w : world S U) (k : key) (e : exn) (s1 : S) :
  make_value_key core function_key func (opt_type_encoders o) args kw
    = Return k ->
  storage_get k (w_storage w) = (Raise e, s1) ->
  let run := wrapper pickle core fl o func function_key lk args kw w in
  let msg := "An error occurred while getting " +:+ k +:+ " from storage" in
  (isinstance e "ImproperlyConfiguredException" = true ->
   result run = Raise e) /\
  (isinstance e "ImproperlyConfiguredException" = false ->
   isinstance e "Exception" = true ->
   result run = Raise (raise_from (CacheError msg) e)) /\
  mentions msg k /\ mentions msg "get" /\
  is_raise (result run) = true /\
  executions (trace run) = 0 /\ writes (trace run) = 0.
Proof.
  intros Hk Hg. cbv zeta.
  rewrite (path_get_error pickle core fl o func function_key lk args kw
             w k e s1 Hk Hg).
  unfold result, trace, get_failure; simpl. splits.
  - intros ->. reflexivity.
  - intros -> ->. reflexivity.
  - exists "An error occurred while getting ", " from storage". reflexivity.
  - exists "An error occurred while ", ("ting " +:+ k +:+ " from storage").
    reflexivity.
  - reflexivity.
  - count_events.
  - count_events.
Qed.

(** C4, as the code has it.  When [Storage.get] answers a payload and
    [pickle.loads] raises [pickle.UnpicklingError], the call raises a
    [CacheError] with that failure as its cause.  However decoding fails,
    the call fails, and the wrapped function is not invoked and nothing is
    written. *)
Theorem unpickling_error_is_wrapped (fl : flavor) (o : options)
    (func : pyfunc U) (function_key : string) (lk : lock)
    (args : list pyvalue) (kw : kwargs) (w : world S U) (k : key)
    (d : bytes) (s1 : S) (e : exn) :
  make_value_key core function_key func (opt_type_encoders o) args kw
    = Return k ->
  storage_get k (w_storage w) = (Return (Some d), s1) ->
  pickle_loads pickle d = Raise e ->
  let run := wrapper pickle core fl o func function_key lk args kw w in
  (isinstance e "UnpicklingError" = true ->
   result run = Raise (raise_from (CacheError ("Failed to unpickle " +:+ k)) e))
  /\ is_raise (result run) = true
  /\ executions (trace run) = 0 /\ writes (trace run) = 0.
Proof.
  intros Hk Hg Hl. cbv zeta.
  rewrite (path_hit pickle core fl o func function_key lk args kw
             w k d s1 Hk Hg), Hl.
  unfold result, trace, loads_failure; simpl. splits.
  - intros ->. reflexivity.
  - reflexivity.
  - count_events.
  - count_events.
Qed.

(** C5, as the code has it.  When [pickle.dumps] raises [TypeError] or
    [pickle.PicklingError] on the computed value, the call raises
    [UnserializableReturnValueError] built from the function and the
    value, with that failure as its cause.  However encoding fails, the
    call fails, [Storage.set] is not called and the backend is as the
    lookup left it; a second call that misses and computes the same value
    ends the same way. *)
Theorem unserializable_return_value (fl : flavor) (o : options)
    (func : pyfunc U) (function_key : string) (lk : lock)
    (args : list pyvalue) (kw : kwargs) (w : world S U) (k : key)
    (s1 : S) (v : pyvalue) (u1 : U) (e : exn) :
  make_value_key core function_key func (opt_type_encoders o) args kw
    = Return k ->
  storage_get k (w_storage w) = (Return None, s1) ->
  fn_body func args kw (w_env w) = (Return v, u1) ->
  pickle_dumps pickle v = Raise e ->
  let run := wrapper pickle core fl o func function_key lk args kw w in
  (isinstance e "TypeError" || isinstance e "PicklingError" = true ->
   result run =
     Raise (raise_from
              (UnserializableReturnValueError (fn_qualname func) v) e)) /\
  is_raise (result run) = true /\
  writes (trace run) = 0 /\ w_storage (final run) = s1 /\
  forall (s1' : S) (u1' : U),
    storage_get k s1 = (Return None, s1') ->
    fn_body func args kw u1 = (Return v, u1') ->
    let run2 :=
      wrapper pickle core fl o func function_key lk args kw (final run) in
    result run2 = result run /\ writes (trace run2) = 0 /\
    w_storage (final run2) = s1'.
Proof.
  intros Hk Hg Hf Hd. cbv zeta.
  rewrite (path_dumps_error pickle core fl o func function_key lk args kw
             w k s1 v u1 e Hk Hg Hf Hd).
  unfold result, trace, final; simpl. splits.
  - unfold dumps_failure. intros ->. reflexivity.
  - reflexivity.
  - count_events.
  - reflexivity.
  - intros s1' u1' Hg' Hf'.
    rewrite (path_dumps_error pickle core fl o func function_key lk args kw
               (settle s1 u1) k s1' v u1' e Hk Hg' Hf' Hd).
    simpl. splits; try reflexivity. count_events.
Qed.

(** C6. When the value is computed and encoded and [Storage.set] raises
    an exception (any instance of [Exception], an
    [ImproperlyConfiguredException] included), the call raises a
    [CacheError] with that exception as its cause and a message naming the
    key and the operation.  Whatever [Storage.set] raises, the call
    raises: it never returns the value it has in hand. *)
Theorem set_failure_fails_call (fl : flavor) (o : options) (func : pyfunc U)
    (function_key : string) (lk : lock) (args : list pyvalue) (kw : kwargs)
    (w : world S U) (k : key) (s1 s2 : S) (v : pyvalue) (u1 : U)
    (d : bytes) (e : exn) :
  make_value_key core function_key func (opt_type_encoders o) args kw
    = Return k ->
  storage_get k (w_storage w) = (Return None, s1) ->
  fn_body func args kw (w_env w) = (Return v, u1) ->
  pickle_dumps pickle v = Return d ->
  storage_set k d (opt_expires_in o) s1 = (Raise e, s2) ->
  let run := wrapper pickle core fl o func function_key lk args kw w in
  let msg := "An error occurred while saving " +:+ k +:+ " to storage" in
  (isinstance e "Exception" = true ->
   result run = Raise (raise_from (CacheError msg) e)) /\
  mentions msg k /\ mentions msg "saving" /\
  is_raise (result run) = true.
Proof.
  intros Hk Hg Hf Hd Hs. cbv zeta.
  rewrite (path_set_error pickle core fl o func function_key lk args kw
             w k s1 s2 v u1 d e Hk Hg Hf Hd Hs).
  unfold result, set_failure; simpl. splits.
  - intros ->. reflexivity.
  - exists "An error occurred while saving ", " to storage". reflexivity.
  - exists "An error occurred while ", (" " +:+ k +:+ " to storage").
    reflexivity.
  - reflexivity.
Qed.

(** On a miss the wrapped function is invoked exactly once, whatever
    happens afterwards. *)
Lemma miss_invokes_function (fl : flavor) (o : options) (func : pyfunc U)
    (function_key : string) (lk : lock) (args : list pyvalue) (kw : kwargs)
    (w : world S U) (k : key) (s1 : S) :
  make_value_key core function_key func (opt_type_encoders o) args kw
    = Return k ->
  storage_get k (w_storage w) = (Return None, s1) ->
  executions
    (trace (wrapper pickle core fl o func function_key lk args kw w)) = 1.
Proof.
  intros Hk Hg.
  destruct (fn_body func args kw (w_env w)) as [[v|e] u1] eqn:Hf;
    [destruct (pickle_dumps pickle v) as [d|e] eqn:Hd;
     [destruct (storage_set k d (opt_expires_in o) s1) as [[[]|e] s2] eqn:Hs|]
    |].
  - erewrite path_stored by eassumption. unfold trace; simpl. count_events.
  - erewrite path_set_error by eassumption. unfold trace; simpl. count_events.
  - erewrite path_dumps_error by eassumption. unfold trace; simpl.
    count_events.
  - erewrite path_func_error by eassumption. unfold trace; simpl.
    count_events.
Qed.

(** C7. An exception raised by the wrapped function reaches the caller
    as it is.  Nothing is written, so the backend is as the lookup left
    it, and a later call that misses again runs the function again. *)
Theorem function_exception_propagates (fl : flavor) (o : options)
    (func : pyfunc U) (function_key : string) (lk : lock)
    (args : list pyvalue) (kw : kwargs) (w : world S U) (k : key)
    (s1 : S) (e : exn) (u1 : U) :
  make_value_key core function_key func (opt_type_encoders o) args kw
    = Return k ->
  storage_get k (w_storage w) = (Return None, s1) ->
  fn_body func args kw (w_env w) = (Raise e, u1) ->
  let run := wrapper pickle core fl o func function_key lk args kw w in
  result run = Raise e /\
  writes (trace run) = 0 /\ w_storage (final run) = s1 /\
  forall s1' : S,
    storage_get k s1 = (Return None, s1') ->
    executions
      (trace (wrapper pickle core fl o func function_key lk args kw
                (final run))) = 1.
Proof.
  intros Hk Hg Hf. cbv zeta.
  rewrite (path_func_error pickle core fl o func function_key lk args kw
             w k s1 e u1 Hk Hg Hf).
  unfold result, trace, final; simpl. splits.
  - reflexivity.
  - count_events.
  - reflexivity.
  - intros s1' Hg'. eapply miss_invokes_function; eauto.
Qed.

(** No call of a wrapper asks whether the function is a coroutine
    function. *)
Lemma wrapper_never_inspects (fl : flavor) (o : options) (func : pyfunc U)
    (function_key : string) (lk : lock) (args : list pyvalue) (kw : kwargs)
    (w : world S U) :
  List.filter is_flavor_check
    (trace (wrapper pickle core fl o func function_key lk args kw w)) = [].
Proof.
  destruct (make_value_key core function_key func (opt_type_encoders o)
              args kw) as [k|e] eqn:Hk.
  2: { erewrite path_key_error by eassumption. unfold trace; simpl.
       rewrite filter_binding_gated by (intros; reflexivity). reflexivity. }
  destruct (storage_get k (w_storage w)) as [[[d|]|e] s1] eqn:Hg.
  - erewrite path_hit by eassumption. unfold trace; simpl.
    rewrite filter_binding_gated by (intros; reflexivity). reflexivity.
  - destruct (fn_body func args kw (w_env w)) as [[v|e] u1] eqn:Hf;
      [destruct (pickle_dumps pickle v) as [d|e] eqn:Hd;
       [destruct (storage_set k d (opt_expires_in o) s1)
          as [[[]|e] s2] eqn:Hs|]
      |].
    + erewrite path_stored by eassumption. unfold trace; simpl.
      rewrite filter_binding_gated by (intros; reflexivity). reflexivity.
    + erewrite path_set_error by eassumption. unfold trace; simpl.
      rewrite filter_binding_gated by (intros; reflexivity). reflexivity.
    + erewrite path_dumps_error by eassumption. unfold trace; simpl.
      rewrite filter_binding_gated by (intros; reflexivity). reflexivity.
    + erewrite path_func_error by eassumption. unfold trace; simpl.
      rewrite filter_binding_gated by (intros; reflexivity). reflexivity.
  - erewrite path_get_error by eassumption. unfold trace; simpl.
    rewrite filter_binding_gated by (intros; reflexivity). reflexivity.
Qed.

(** C9. [cache_value] applied to a coroutine function raises at
    decoration, and so does [async_cache_value] applied to a function that
    is not one.  Either way the exception is of one and the same class,
    [TypeError], which is how this module reports a configuration error,
    and no wrapper comes to exist that could be called.  The decoration
    asks once whether the function is a coroutine function; a call of a
    wrapper never does. *)
Theorem flavor_checked_at_decoration (o : options) (func : pyfunc U) :
  (fn_iscoroutine func = true ->
   exists msg, (decorate pickle core Blocking o func).1
               = Raise (TypeError msg)) /\
  (fn_iscoroutine func = false ->
   exists msg, (decorate pickle core Suspending o func).1
               = Raise (TypeError msg)) /\
  (forall fl e,
     (decorate pickle core fl o func).1 = Raise e ->
     exn_class e = TypeError_cls) /\
  (forall fl,
     List.filter is_flavor_check (decorate pickle core fl o func).2
     = [EvIscoroutinefunction (fn_qualname func)]) /\
  (forall fl wr,
     (decorate pickle core fl o func).1 = Return wr ->
     forall (args : list pyvalue) (kw : kwargs) (w : world S U),
       List.filter is_flavor_check (trace (wr args kw w)) = []).
Proof.
  unfold decorate, decorate_with, cache_value.__call__,
      async_cache_value.__call__.
  splits.
  - intros ->. eexists. reflexivity.
  - intros ->. eexists. reflexivity.
  - intros [] e; destruct (fn_iscoroutine func); simpl;
      intros [=]; subst; reflexivity.
  - intros []; destruct (fn_iscoroutine func); reflexivity.
  - intros [] wr; destruct (fn_iscoroutine func); simpl; intros [=]; subst;
      intros args kw w.
    + apply (wrapper_never_inspects Blocking).
    + apply (wrapper_never_inspects Suspending).
Qed.

End Orchestration.

(** ** Arguments that cannot be turned into a key *)

Section KeyDerivation.
Context {S U : Type} `{Storage S} (pickle : Pickle).
Variable natively_hashable : string -> bool.
Variable native_repr : pyvalue -> bytes.
Variable digest : list (string * bytes) -> string.

Lemma hashable_repr_none (enc : type_encoders) (v : pyvalue) :
  core_model.hashable_repr natively_hashable native_repr enc v = None <->
  natively_hashable (type_of v) = false /\
  core_model.encoder_for enc (type_of v) = None.
Proof.
  unfold core_model.hashable_repr.
  destruct (natively_hashable (type_of v)).
  - split; [discriminate | intros [? _]; discriminate].
  - destruct (core_model.encoder_for enc (type_of v)); simpl;
      split; try discriminate; auto. intros [_ ?]; discriminate.
Qed.

(** The derivation stops at the first argument without a hashable
    representation and names it. *)
Lemma encode_arguments_unhashable (enc : type_encoders)
    (named : list (string * pyvalue)) :
  (exists name v,
     In (name, v) named /\
     core_model.hashable_repr natively_hashable native_repr enc v = None) ->
  exists name v,
    In (name, v) named /\
    core_model.hashable_repr natively_hashable native_repr enc v = None /\
    core_model.encode_arguments natively_hashable native_repr enc named
      = Raise (core_model.UnhashableParamError name (type_of v)).
Proof.
  induction named as [|[n x] rest IH]; intros (name & v & Hin & Hv).
  - destruct Hin.
  - simpl.
    destruct (core_model.hashable_repr natively_hashable native_repr enc x)
      as [h|] eqn:Hx.
    + destruct Hin as [Heq|Hin]; [injection Heq as -> ->; congruence|].
      destruct IH as (name' & v' & Hin' & Hv' & ->); [eauto|].
      exists name', v'. auto.
    + exists n, x. auto.
Qed.

(** Every argument of the call is among the named arguments. *)
Lemma passed_argument_is_named (func : pyfunc U) (args : list pyvalue)
    (kw : kwargs) (v : pyvalue) :
  NoDup kw.*1 ->
  In v args \/ (exists name, In (name, v) kw) ->
  exists name, In (name, v) (core_model.named_arguments func args kw).
Proof.
  intros Hnd [Hin|[name Hin]]; unfold core_model.named_arguments.
  - apply list_elem_of_In, list_elem_of_lookup_1 in Hin as [i Hi].
    exists (nth i (fn_params func) "*args").
    apply in_or_app. left. apply list_elem_of_In.
    apply (elem_of_lookup_imap_2
             (fun i v => (nth i (fn_params func) "*args", v))). exact Hi.
  - exists name. apply in_or_app. right. apply list_elem_of_In.
    apply elem_of_map_to_list, elem_of_list_to_map_1; [exact Hnd|].
    apply list_elem_of_In. exact Hin.
Qed.

(** C8. A call that passes an argument whose type is neither natively
    hashable nor registered in [type_encoders] raises
    [UnhashableParamError] naming a parameter of the call and its type, one
    that has no hashable representation.  The error is raised before
    storage is read and before the wrapped function is invoked; the
    backend is as the binding left it and the function's environment as it
    was.  (The call gets as far as deriving the key: storage is bound
    already, or the storage factory answers.) *)
Theorem unhashable_argument_rejected (factory : S -> outcome unit * S)
    (fl : flavor) (o : options) (func : pyfunc U) (function_key : string)
    (lk : lock) (args : list pyvalue) (kw : kwargs) (w : world S U)
    (v : pyvalue) (s0 : S) :
  NoDup kw.*1 ->
  In v args \/ (exists name, In (name, v) kw) ->
  natively_hashable (type_of v) = false ->
  core_model.encoder_for (opt_type_encoders o) (type_of v) = None ->
  (w_bound w = true /\ s0 = w_storage w) \/
  (w_bound w = false /\ factory (w_storage w) = (Return tt, s0)) ->
  let run :=
    wrapper_with pickle
      (core_model.core natively_hashable native_repr digest)
      factory fl o func function_key lk args kw w in
  (exists name v',
     In (name, v') (core_model.named_arguments func args kw) /\
     natively_hashable (type_of v') = false /\
     core_model.encoder_for (opt_type_encoders o) (type_of v') = None /\
     result run
       = Raise (core_model.UnhashableParamError name (type_of v'))) /\
  executions (trace run) = 0 /\ reads (trace run) = 0 /\
  writes (trace run) = 0 /\
  w_storage (final run) = s0 /\ w_env (final run) = w_env w.
Proof.
  intros Hnd Hpassed Hnative Henc Hready.
  destruct (passed_argument_is_named func args kw v Hnd Hpassed)
    as [name Hin].
  destruct (encode_arguments_unhashable (opt_type_encoders o)
              (core_model.named_arguments func args kw))
    as (name' & v' & Hin' & Hv' & Hraise).
  { exists name, v. split; [exact Hin|]. apply hashable_repr_none. auto. }
  apply hashable_repr_none in Hv' as [Hn' He'].
  assert (make_value_key
            (core_model.core natively_hashable native_repr digest)
            function_key func (opt_type_encoders o) args kw
          = Raise (core_model.UnhashableParamError name' (type_of v')))
    as Hkey.
  { simpl. unfold core_model.make_value_key. rewrite Hraise. reflexivity. }
  cbv zeta.
  destruct Hready as [[Hb ->]|[Hb Hf]].
  - rewrite (factory_skipped pickle _ factory fl o func function_key lk
               args kw w Hb).
    rewrite (path_key_error pickle _ fl o func function_key lk args kw w
               _ Hkey).
    unfold result, trace, final; simpl. splits; try reflexivity.
    + exists name', v'. auto.
    + count_events.
    + count_events.
    + count_events.
  - rewrite (factory_answers pickle _ factory fl o func function_key lk
               args kw w s0 Hb Hf).
    rewrite (path_key_error pickle _ fl o func function_key lk args kw
               (set_storage s0 w) _ Hkey).
    unfold result, trace, final; simpl. splits; try reflexivity.
    + exists name', v'. auto.
    + count_events.
    + count_events.
    + count_events.
Qed.

End KeyDerivation.

(** ** The scenarios of the test suite *)

Section Scenarios.
Import scenario.

(** [test_can_cache_pickleable_value], with a pure function. *)
Lemma pure_function_runs_once_witness :
  let run1 :=
    wrapper pickle core Blocking defaults constant
      "tests.test_value.constant" NullLock [] [] (fresh empty_backend) in
  let run2 :=
    wrapper pickle core Blocking defaults constant
      "tests.test_value.constant" NullLock [] [] (final run1) in
  result run1 = Return v_pickleable /\ result run2 = Return v_pickleable /\
  executions (trace run1 ++ trace run2) = 1 /\
  trace run2 =
    gated NullLock [EvGet "tests.test_value.constant-";
                    EvDebug "Cache hit: %s"; EvLoads d_pickleable] /\
  executions (trace run2) = 0 /\ writes (trace run2) = 0.
Proof.
  apply (pure_function_runs_once pickle core Blocking defaults constant
           "tests.test_value.constant" NullLock (fresh empty_backend)
           "tests.test_value.constant-" v_pickleable d_pickleable
           empty_backend
           (holding "tests.test_value.constant-" d_pickleable)
           (holding "tests.test_value.constant-" d_pickleable));
    vm_compute; reflexivity.
Defined.

(** [test_can_cache_pickleable_value_async]: the first call. *)
Lemma miss_computes_stores_returns_witness :
  let run :=
    wrapper pickle core Suspending defaults async_call_mock
      "tests.test_value.call_mock" NullLock [] [] (fresh empty_backend) in
  List.filter is_call (trace run) = [EvCall "call_mock" [] []] /\
  In (EvDumps v_pickleable) (trace run) /\
  List.filter is_set (trace run)
    = [EvSet "tests.test_value.call_mock-" d_pickleable None] /\
  result run = Return v_pickleable.
Proof.
  destruct (miss_computes_stores_returns pickle core Suspending defaults
              async_call_mock "tests.test_value.call_mock" NullLock [] []
              (fresh empty_backend) "tests.test_value.call_mock-"
              empty_backend)
    as [Hcall Hrest]; try (vm_compute; reflexivity).
  destruct (Hrest v_pickleable 1) as [Hdumps Hd];
    try (vm_compute; reflexivity).
  destruct (Hd d_pickleable) as [Hset Hret]; try (vm_compute; reflexivity).
  destruct (Hret (holding "tests.test_value.call_mock-" d_pickleable))
    as (Hres & _); try (vm_compute; reflexivity).
  cbv zeta. auto.
Defined.

(** A backend that refuses the connection, and one that reports its own
    misconfiguration. *)
Lemma get_failure_aborts_call_witness :
  let run e :=
    wrapper pickle core Blocking defaults call_mock
      "tests.test_value.call_mock" Lock [] [] (fresh (unreadable e)) in
  result (run improperly_configured) = Raise improperly_configured /\
  result (run connection_refused)
    = Raise (raise_from
               (CacheError ("An error occurred while getting "
                            +:+ "tests.test_value.call_mock-"
                            +:+ " from storage"))
               connection_refused) /\
  executions (trace (run connection_refused)) = 0.
Proof.
  destruct (get_failure_aborts_call pickle core Blocking defaults call_mock
              "tests.test_value.call_mock" Lock [] []
              (fresh (unreadable improperly_configured))
              "tests.test_value.call_mock-" improperly_configured
              (unreadable improperly_configured))
    as (Hsame & _); try (vm_compute; reflexivity).
  destruct (get_failure_aborts_call pickle core Blocking defaults call_mock
              "tests.test_value.call_mock" Lock [] []
              (fresh (unreadable connection_refused))
              "tests.test_value.call_mock-" connection_refused
              (unreadable connection_refused))
    as (_ & Hwrap & _ & _ & _ & Hcalls & _); try (vm_compute; reflexivity).
  cbv zeta. splits.
  - apply Hsame. vm_compute; reflexivity.
  - apply Hwrap; vm_compute; reflexivity.
  - exact Hcalls.
Defined.

(** An interrupt is no failure of the backend: [except Exception] does
    not catch it, and it reaches the caller as it is. *)
Example interrupt_passes_through :
  result (wrapper pickle core Blocking defaults call_mock
            "tests.test_value.call_mock" NullLock [] []
            (fresh (unreadable interrupted)))
  = Raise interrupted.
Proof. vm_compute; reflexivity. Qed.

(** A payload that starts with an opcode [pickle] does not know. *)
Lemma unpickling_error_is_wrapped_witness :
  let e := invalid_load_key in
  let run :=
    wrapper pickle core Blocking defaults call_mock
      "tests.test_value.call_mock" NullLock [] []
      (fresh (holding "tests.test_value.call_mock-" ["?"%byte])) in
  result run
    = Raise (raise_from
               (CacheError ("Failed to unpickle "
                            +:+ "tests.test_value.call_mock-")) e) /\
  executions (trace run) = 0.
Proof.
  destruct (unpickling_error_is_wrapped pickle core Blocking defaults
              call_mock "tests.test_value.call_mock" NullLock [] []
              (fresh (holding "tests.test_value.call_mock-" ["?"%byte]))
              "tests.test_value.call_mock-" ["?"%byte]
              (holding "tests.test_value.call_mock-" ["?"%byte])
              invalid_load_key)
    as (Hwrap & _ & Hcalls & _); try (vm_compute; reflexivity).
  cbv zeta. split; [apply Hwrap; vm_compute; reflexivity | exact Hcalls].
Defined.

(** C4 does not hold as stated.  A payload cut short to nothing is
    present in storage and fails to decode: [pickle.loads] raises
    [EOFError], and the call raises that [EOFError], not a [CacheError]. *)
Lemma truncated_payload_not_wrapped :
  let eof := Exn EOFError_cls [PyStr "Ran out of input"] [] None in
  let w := fresh (holding "tests.test_value.call_mock-" []) in
  let run :=
    wrapper pickle core Blocking defaults call_mock
      "tests.test_value.call_mock" NullLock [] [] w in
  storage_get "tests.test_value.call_mock-" (w_storage w)
    = (Return (Some []), w_storage w) /\
  pickle_loads pickle [] = Raise eof /\
  result run = Raise eof /\
  isinstance eof "CacheError" = false /\
  ~ (exists msg, result run = Raise (raise_from (CacheError msg) eof)).
Proof.
  cbv zeta. splits; try (vm_compute; reflexivity).
  intros [msg Hmsg]. vm_compute in Hmsg. discriminate Hmsg.
Qed.

(** [test_cannot_cache_non_pickleable_value]: both calls. *)
Lemma unserializable_return_value_witness :
  let tf := PyObject "_TemporaryFileWrapper" "closed" in
  let e := TypeError "cannot pickle '_io.BufferedRandom' object" in
  let run1 :=
    wrapper pickle core Blocking defaults not_picklable
      "tests.test_value.not_picklable" NullLock [] []
      (fresh empty_backend) in
  let run2 :=
    wrapper pickle core Blocking defaults not_picklable
      "tests.test_value.not_picklable" NullLock [] [] (final run1) in
  result run1
    = Raise (raise_from
               (UnserializableReturnValueError "not_picklable" tf) e) /\
  writes (trace run1) = 0 /\
  result run2 = result run1 /\ writes (trace run2) = 0.
Proof.
  destruct (unserializable_return_value pickle core Blocking defaults
              not_picklable "tests.test_value.not_picklable" NullLock [] []
              (fresh empty_backend) "tests.test_value.not_picklable-"
              empty_backend (PyObject "_TemporaryFileWrapper" "closed") 1
              (TypeError "cannot pickle '_io.BufferedRandom' object"))
    as (Hwrap & _ & Hwrites & _ & Hagain); try (vm_compute; reflexivity).
  destruct (Hagain empty_backend 2) as (Hsame & Hwrites2 & _);
    try (vm_compute; reflexivity).
  cbv zeta. splits;
    [apply Hwrap; vm_compute; reflexivity
    | exact Hwrites | exact Hsame | exact Hwrites2].
Defined.

(** C5 does not hold as stated.  An instance of a class defined inside
    the function fails to encode: [pickle.dumps] raises [AttributeError],
    and the call raises that [AttributeError], not an
    [UnserializableReturnValueError]. *)
Lemma local_object_not_wrapped :
  let obj := PyObject "make_local.<locals>.Local" "" in
  let e :=
    Exn AttributeError_cls
      [PyStr "Can't pickle local object make_local.<locals>.Local"] []
      None in
  let w := fresh empty_backend in
  let run :=
    wrapper pickle core Blocking defaults make_local
      "tests.test_value.make_local" NullLock [] [] w in
  fn_body make_local [] [] (w_env w) = (Return obj, w_env w) /\
  pickle_dumps pickle obj = Raise e /\
  result run = Raise e /\
  isinstance e "UnserializableReturnValueError" = false /\
  result run
    <> Raise (raise_from (UnserializableReturnValueError "make_local" obj) e).
Proof.
  cbv zeta. splits; try (vm_compute; reflexivity).
  intros Hr. vm_compute in Hr. discriminate Hr.
Qed.

(** A backend that refuses the write. *)
Lemma set_failure_fails_call_witness :
  let run :=
    wrapper pickle core Suspending defaults async_call_mock
      "tests.test_value.call_mock" NullLock [] []
      (fresh (unwritable connection_refused)) in
  result run
    = Raise (raise_from
               (CacheError ("An error occurred while saving "
                            +:+ "tests.test_value.call_mock-"
                            +:+ " to storage"))
               connection_refused) /\
  is_raise (result run) = true.
Proof.
  destruct (set_failure_fails_call pickle core Suspending defaults
              async_call_mock "tests.test_value.call_mock" NullLock [] []
              (fresh (unwritable connection_refused))
              "tests.test_value.call_mock-"
              (unwritable connection_refused)
              (unwritable connection_refused)
              v_pickleable 1 d_pickleable connection_refused)
    as (Hwrap & _ & _ & Hraise); try (vm_compute; reflexivity).
  cbv zeta. split; [apply Hwrap; vm_compute; reflexivity | exact Hraise].
Defined.

(** A function that raises [ValueError]. *)
Lemma function_exception_propagates_witness :
  let run1 :=
    wrapper pickle core Blocking defaults failing
      "tests.test_value.failing" NullLock [] [] (fresh empty_backend) in
  let run2 :=
    wrapper pickle core Blocking defaults failing
      "tests.test_value.failing" NullLock [] [] (final run1) in
  result run1 = Raise boom /\ writes (trace run1) = 0 /\
  w_storage (final run1) = empty_backend /\
  executions (trace run2) = 1.
Proof.
  destruct (function_exception_propagates pickle core Blocking defaults
              failing "tests.test_value.failing" NullLock [] []
              (fresh empty_backend) "tests.test_value.failing-"
              empty_backend boom 1)
    as (Hres & Hwrites & Hsame & Hagain); try (vm_compute; reflexivity).
  cbv zeta. splits; [exact Hres | exact Hwrites | exact Hsame |].
  apply (Hagain empty_backend). vm_compute; reflexivity.
Defined.

(** [test_type_encoders]: [call_fail(conn)], the first call of the
    decorated function. *)
Lemma unhashable_argument_rejected_witness :
  let run :=
    wrapper_with pickle core memory_storage_factory Blocking defaults
      call_fail "tests.test_value.call_fail" NullLock [conn] []
      (fresh empty_backend) in
  (exists name v',
     In (name, v') (core_model.named_arguments call_fail [conn] []) /\
     natively_hashable (type_of v') = false /\
     core_model.encoder_for None (type_of v') = None /\
     result run
       = Raise (core_model.UnhashableParamError name (type_of v'))) /\
  executions (trace run) = 0 /\ reads (trace run) = 0 /\
  writes (trace run) = 0 /\
  w_storage (final run) = empty_backend /\ w_env (final run) = 0.
Proof.
  apply (unhashable_argument_rejected pickle natively_hashable native_repr
           digest memory_storage_factory Blocking defaults call_fail
           "tests.test_value.call_fail" NullLock [conn] []
           (fresh empty_backend) conn empty_backend).
  - constructor.
  - left. left. reflexivity.
  - vm_compute; reflexivity.
  - reflexivity.
  - right. split; reflexivity.
Defined.

(** [test_cache_value_cannot_wrap_coroutine] and
    [test_async_cache_value_must_wrap_coroutine]. *)
Lemma flavor_checked_at_decoration_witness :
  (exists msg,
     (decorate (S := backend) pickle core Blocking defaults
        async_call_mock).1 = Raise (TypeError msg)) /\
  (exists msg,
     (decorate (S := backend) pickle core Suspending defaults
        call_mock).1 = Raise (TypeError msg)) /\
  (forall wr,
     (decorate (S := backend) pickle core Blocking defaults call_mock).1
       = Return wr ->
     List.filter is_flavor_check (trace (wr [] [] (fresh empty_backend)))
       = []).
Proof.
  destruct (flavor_checked_at_decoration (S := backend) pickle core defaults
              async_call_mock) as (Hsync & _).
  destruct (flavor_checked_at_decoration (S := backend) pickle core defaults
              call_mock) as (_ & Hasync & _ & _ & Hcalls).
  splits.
  - apply Hsync. reflexivity.
  - apply Hasync. reflexivity.
  - intros wr Hwr. apply (Hcalls Blocking wr Hwr).
Defined.

(** A function that returns [None], called twice with the same argument. *)
Lemma none_result_is_cached_witness :
  let run1 :=
    wrapper pickle core Blocking defaults nothing
      "tests.test_value.nothing" NullLock [PyInt 1] []
      (fresh empty_backend) in
  let run2 :=
    wrapper pickle core Blocking defaults nothing
      "tests.test_value.nothing" NullLock [PyInt 1] [] (final run1) in
  result run1 = Return PyNone /\
  List.filter is_set (trace run1)
    = [EvSet "tests.test_value.nothing-x=1" d_none None] /\
  result run2 = Return PyNone /\
  trace run2 =
    gated NullLock [EvGet "tests.test_value.nothing-x=1";
                    EvDebug "Cache hit: %s"; EvLoads d_none] /\
  executions (trace run2) = 0.
Proof.
  apply (none_result_is_cached pickle core Blocking defaults nothing
           "tests.test_value.nothing" NullLock [PyInt 1] []
           (fresh empty_backend) "tests.test_value.nothing-x=1" 1 d_none
           empty_backend
           (holding "tests.test_value.nothing-x=1" d_none)
           (holding "tests.test_value.nothing-x=1" d_none));
    vm_compute; reflexivity.
Defined.

End Scenarios.

(** ** Every call, whatever the collaborators answer *)

Section EveryCall.
Context {S U : Type} `{Storage S} (pickle : Pickle) (core : Core U).
Variables (fl : flavor) (o : options) (func : pyfunc U).
Variables (function_key : string) (lk : lock).
Variables (args : list pyvalue) (kw : kwargs).

(** The wrapper as one case analysis on the answers of its
    collaborators. *)
Lemma wrapper_cases (w : world S U) :
  wrapper pickle core fl o func function_key lk args kw w =
  match make_value_key core function_key func (opt_type_encoders o)
          args kw with
  | Raise e =>
      (Raise e, settle (w_storage w) (w_env w),
       binding fl o w ++ gated lk [])
  | Return k =>
      match storage_get k (w_storage w) with
      | (Raise e, s1) =>
          (Raise (get_failure k e), settle s1 (w_env w),
           binding fl o w ++ gated lk [EvGet k])
      | (Return (Some d), s1) =>
          (match pickle_loads pickle d with
           | Return v => Return v
           | Raise e => Raise (loads_failure k e)
           end,
           settle s1 (w_env w),
           binding fl o w
             ++ gated lk [EvGet k; EvDebug "Cache hit: %s"; EvLoads d])
      | (Return None, s1) =>
          match fn_body func args kw (w_env w) with
          | (Raise e, u1) =>
              (Raise e, settle s1 u1,
               binding fl o w
                 ++ gated lk [EvGet k; EvDebug "Cache miss: %s";
                              EvCall (fn_qualname func) args kw])
          | (Return v, u1) =>
              match pickle_dumps pickle v with
              | Raise e =>
                  (Raise (dumps_failure (fn_qualname func) v e),
                   settle s1 u1,
                   binding fl o w
                     ++ gated lk [EvGet k; EvDebug "Cache miss: %s";
                                  EvCall (fn_qualname func) args kw;
                                  EvDumps v])
              | Return d =>
                  match storage_set k d (opt_expires_in o) s1 with
                  | (Raise e, s2) =>
                      (Raise (set_failure k e), settle s2 u1,
                       binding fl o w
                         ++ gated lk [EvGet k; EvDebug "Cache miss: %s";
                                      EvCall (fn_qualname func) args kw;
                                      EvDumps v;
                                      EvSet k d (opt_expires_in o)])
                  | (Return _, s2) =>
                      (Return v, settle s2 u1,
                       binding fl o w
                         ++ gated lk [EvGet k; EvDebug "Cache miss: %s";
                                      EvCall (fn_qualname func) args kw;
                                      EvDumps v;
                                      EvSet k d (opt_expires_in o)])
                  end
              end
          end
      end
  end.
Proof.
  destruct (make_value_key core function_key func (opt_type_encoders o)
              args kw) as [k|e] eqn:Hk;
    [|apply path_key_error; exact Hk].
  destruct (storage_get k (w_storage w)) as [[[d|]|e] s1] eqn:Hg;
    [apply path_hit; assumption | | apply path_get_error; assumption].
  destruct (fn_body func args kw (w_env w)) as [[v|e] u1] eqn:Hf;
    [|apply path_func_error; assumption].
  destruct (pickle_dumps pickle v) as [d|e] eqn:Hd;
    [|eapply path_dumps_error; eassumption].
  destruct (storage_set k d (opt_expires_in o) s1) as [[[]|e] s2] eqn:Hs;
    [eapply path_stored; eassumption | eapply path_set_error; eassumption].
Qed.

End EveryCall.

(** Go through every path of a call. *)
Ltac every_path :=
  rewrite !wrapper_cases; unfold result, final, trace;
  repeat case_match; simplify_eq; cbn [fst snd].

Section Invariants.
Context {S U : Type} `{Storage S} (pickle : Pickle) (core : Core U).
Variable factory : S -> outcome unit * S.
Variables (fl : flavor) (o : options) (func : pyfunc U).
Variables (function_key : string) (lk : lock).
Variables (args : list pyvalue) (kw : kwargs).

(** Once the factory has answered, a call asks it for nothing more and
    leaves storage bound. *)
Lemma bound_after_binding (w : world S U) :
  let run := wrapper pickle core fl o func function_key lk args kw w in
  w_bound (final run) = true /\
  exists tr, trace run = binding fl o w ++ tr /\
             List.filter is_factory tr = [].
Proof.
  cbv zeta. split.
  - every_path; reflexivity.
  - every_path; eexists; (split; [reflexivity|]);
      destruct lk; reflexivity.
Qed.

(** A call that finds storage unbound starts by calling the factory. *)
Lemma unbound_call_asks_factory (w : world S U) :
  w_bound w = false ->
  exists tr,
    trace (wrapper_with pickle core factory fl o func function_key lk
             args kw w)
    = EvFactory (awaits fl o) :: tr /\
    List.filter is_factory tr = [].
Proof.
  intros Hb. destruct (factory (w_storage w)) as [[[]|e] s0] eqn:Hf.
  - rewrite (factory_answers pickle core factory fl o func function_key lk
               args kw w s0 Hb Hf).
    destruct (bound_after_binding (set_storage s0 w)) as (_ & tr & -> & Htr).
    exists tr. split; [|exact Htr].
    unfold binding, awaits. simpl. rewrite Hb. destruct fl; reflexivity.
  - rewrite (factory_raises pickle core factory fl o func function_key lk
               args kw w e s0 Hb Hf).
    exists []. split; reflexivity.
Qed.

(** X1. Storage is bound lazily.  A call that finds storage bound does
    not call the factory.  A call that finds it unbound calls the factory
    once, before anything else.  If the factory answers, storage is bound
    from then on and the next call does not call it.  If the factory
    raises, its exception reaches the caller as it is and the call has done
    nothing else: no gate, no lookup, no execution; storage stays unbound,
    and the next call calls the factory again. *)
Theorem storage_bound_once (w : world S U) :
  let run :=
    wrapper_with pickle core factory fl o func function_key lk args kw w in
  let next :=
    wrapper_with pickle core factory fl o func function_key lk args kw
      (final run) in
  (w_bound w = true ->
   List.filter is_factory (trace run) = [] /\ w_bound (final run) = true) /\
  (w_bound w = false ->
   forall r s0,
     factory (w_storage w) = (r, s0) ->
     match r with
     | Return _ =>
         (exists tr, trace run = EvFactory (awaits fl o) :: tr /\
                     List.filter is_factory tr = []) /\
         w_bound (final run) = true /\
         List.filter is_factory (trace next) = []
     | Raise e =>
         result run = Raise e /\
         trace run = [EvFactory (awaits fl o)] /\
         w_bound (final run) = false /\
         w_storage (final run) = s0 /\ w_env (final run) = w_env w /\
         exists tr, trace next = EvFactory (awaits fl o) :: tr
     end).
Proof.
  cbv zeta. split.
  - intros Hb.
    rewrite (factory_skipped pickle core factory fl o func function_key lk
               args kw w Hb).
    destruct (bound_after_binding w) as (Hbound & tr & -> & Htr).
    split; [|exact Hbound].
    unfold binding. rewrite Hb. exact Htr.
  - intros Hb [[]|e] s0 Hf.
    + rewrite (factory_answers pickle core factory fl o func function_key lk
                 args kw w s0 Hb Hf).
      destruct (bound_after_binding (set_storage s0 w))
        as (Hbound & tr & Htrace & Htr).
      splits.
      * exists tr. split; [|exact Htr]. rewrite Htrace.
        unfold binding, awaits. simpl. rewrite Hb. destruct fl; reflexivity.
      * exact Hbound.
      * rewrite (factory_skipped pickle core factory fl o func function_key
                   lk args kw _ Hbound).
        destruct (bound_after_binding
                    (final (wrapper pickle core fl o func function_key lk
                              args kw (set_storage s0 w))))
          as (_ & tr' & -> & Htr').
        unfold binding. rewrite Hbound. exact Htr'.
    + rewrite (factory_raises pickle core factory fl o func function_key lk
                 args kw w e s0 Hb Hf).
      unfold result, trace, final; cbn [fst snd].
      splits; try reflexivity.
      * destruct w; simpl in *; exact Hb.
      * destruct (unbound_call_asks_factory (set_storage s0 w))
          as (tr & Htrace & _); [destruct w; simpl in *; exact Hb|].
        exists tr. exact Htrace.
Qed.



End Invariants.

(** ** Keys, hits and what a returned value is *)

Lemma executions_app (tr1 tr2 : list event) :
  executions (tr1 ++ tr2) = executions tr1 + executions tr2.
Proof. unfold executions. rewrite List.filter_app. apply length_app. Qed.

Lemma writes_app (tr1 tr2 : list event) :
  writes (tr1 ++ tr2) = writes tr1 + writes tr2.
Proof. unfold writes. rewrite List.filter_app. apply length_app. Qed.

Section Keys.
Context {S U : Type} `{Storage S} (pickle : Pickle) (core : Core U).
Variables (fl : flavor) (o : options) (func : pyfunc U).
Variables (function_key : string) (lk : lock).
Variables (args : list pyvalue) (kw : kwargs).

(** X7. [make_value_key] is called outside every [try]: whatever it
    raises reaches the caller as it is, and the call has then neither
    read nor written storage nor run the wrapped function; the backend
    and the function's environment are as they were. *)
Theorem key_error_propagates (w : world S U) (err : exn) :
  make_value_key core function_key func (opt_type_encoders o) args kw
    = Raise err ->
  let run := wrapper pickle core fl o func function_key lk args kw w in
  result run = Raise err /\
  reads (trace run) = 0 /\ executions (trace run) = 0 /\
  writes (trace run) = 0 /\
  w_storage (final run) = w_storage w /\ w_env (final run) = w_env w.
Proof.
  intros Hk. cbv zeta.
  rewrite (path_key_error pickle core fl o func function_key lk args kw
             w err Hk).
  unfold result, trace, final; simpl. splits; try reflexivity; count_events.
Qed.

(** X8. A call touches storage under the key derived for it and under
    no other: every read and every write in its trace carries that
    key. *)
Theorem only_derived_key_touched (w : world S U) (key0 : key) :
  make_value_key core function_key func (opt_type_encoders o) args kw
    = Return key0 ->
  Forall (touches_only key0)
    (trace (wrapper pickle core fl o func function_key lk args kw w)).
Proof.
  intros Hk. every_path;
    unfold binding, gated;
    destruct (w_bound w), fl, lk; simpl;
    repeat constructor.
Qed.

(** X4. A hit does not consult the wrapped function.  When storage
    answers a payload that decodes, the call returns the decoded value
    whatever the function would compute now; the function is not run, its
    environment is untouched, and storage is read once and not written. *)
Theorem hit_ignores_function (w : world S U) (key0 : key) (data : bytes)
    (s' : S) (cached : pyvalue) :
  make_value_key core function_key func (opt_type_encoders o) args kw
    = Return key0 ->
  storage_get key0 (w_storage w) = (Return (Some data), s') ->
  pickle_loads pickle data = Return cached ->
  let run := wrapper pickle core fl o func function_key lk args kw w in
  result run = Return cached /\
  reads (trace run) = 1 /\ executions (trace run) = 0 /\
  writes (trace run) = 0 /\
  w_env (final run) = w_env w /\ w_storage (final run) = s'.
Proof.
  intros Hk Hg Hl. cbv zeta.
  rewrite (path_hit pickle core fl o func function_key lk args kw
             w key0 data s' Hk Hg), Hl.
  unfold result, trace, final; simpl. splits; try reflexivity; count_events.
Qed.

(** X5. A call returns a value only in two ways.  Either storage held
    a payload and the value is what it decodes to, and then the function
    did not run and nothing was written; or storage held nothing, the
    function returned the value, the value was encoded and the payload was
    stored under the key with [expires_in].  No path returns a value after
    a collaborator has raised. *)
Theorem returned_value_origin (w : world S U) (ret : pyvalue) :
  let run := wrapper pickle core fl o func function_key lk args kw w in
  result run = Return ret ->
  exists key0,
    make_value_key core function_key func (opt_type_encoders o) args kw
      = Return key0 /\
    ((exists data s',
        storage_get key0 (w_storage w) = (Return (Some data), s') /\
        pickle_loads pickle data = Return ret /\
        executions (trace run) = 0 /\ writes (trace run) = 0)
     \/
     (exists s' u' data s'',
        storage_get key0 (w_storage w) = (Return None, s') /\
        fn_body func args kw (w_env w) = (Return ret, u') /\
        pickle_dumps pickle ret = Return data /\
        storage_set key0 data (opt_expires_in o) s' = (Return tt, s'') /\
        w_storage (final run) = s'' /\
        List.filter is_set (trace run)
          = [EvSet key0 data (opt_expires_in o)])).
Proof.
  cbv zeta. rewrite wrapper_cases. unfold result, final, trace.
  destruct (make_value_key core function_key func (opt_type_encoders o)
              args kw) as [k|e] eqn:Hk; [|discriminate].
  destruct (storage_get k (w_storage w)) as [[[d|]|e] s1] eqn:Hg;
    [| |discriminate].
  - destruct (pickle_loads pickle d) as [v|e] eqn:Hl; [|discriminate].
    cbn [fst snd]. intros [= ->]. exists k. split; [reflexivity|]. left.
    exists d, s1. splits; try reflexivity; try assumption; count_events.
  - destruct (fn_body func args kw (w_env w)) as [[v|e] u1] eqn:Hf;
      [|discriminate].
    destruct (pickle_dumps pickle v) as [d|e] eqn:Hd; [|discriminate].
    destruct (storage_set k d (opt_expires_in o) s1) as [[[]|e] s2] eqn:Hs;
      [|discriminate].
    cbn [fst snd]. intros [= ->]. exists k. split; [reflexivity|]. right.
    exists s1, u1, d, s2. rewrite Hd.
    splits; try reflexivity; try assumption.
    rewrite filter_binding_gated by (intros; reflexivity). reflexivity.
Qed.

(** X12. A payload that does not decode is never repaired.  The call
    fails without running the function and without writing, so the entry
    stays; a second call that is answered the same payload fails with the
    same exception, and the function has still not run. *)
Theorem undecodable_entry_persists (w : world S U) (key0 : key)
    (data : bytes) (s' s'' : S) (err : exn) :
  make_value_key core function_key func (opt_type_encoders o) args kw
    = Return key0 ->
  storage_get key0 (w_storage w) = (Return (Some data), s') ->
  pickle_loads pickle data = Raise err ->
  storage_get key0 s' = (Return (Some data), s'') ->
  let run1 := wrapper pickle core fl o func function_key lk args kw w in
  let run2 :=
    wrapper pickle core fl o func function_key lk args kw (final run1) in
  is_raise (result run1) = true /\ result run2 = result run1 /\
  executions (trace run1 ++ trace run2) = 0 /\
  writes (trace run1 ++ trace run2) = 0 /\
  w_env (final run2) = w_env w.
Proof.
  intros Hk Hg Hl Hg2. cbv zeta.
  rewrite (path_hit pickle core fl o func function_key lk args kw
             w key0 data s' Hk Hg), Hl.
  unfold final; cbn [fst snd].
  rewrite (path_hit pickle core fl o func function_key lk args kw
             (settle s' (w_env w)) key0 data s'' Hk Hg2), Hl.
  unfold result, trace; cbn [fst snd].
  rewrite executions_app, writes_app.
  splits; try reflexivity.
  - assert (executions (binding fl o w ++ gated lk
              [EvGet key0; EvDebug "Cache hit: %s"; EvLoads data]) = 0)
      as -> by count_events.
    destruct lk; reflexivity.
  - assert (writes (binding fl o w ++ gated lk
              [EvGet key0; EvDebug "Cache hit: %s"; EvLoads data]) = 0)
      as -> by count_events.
    destruct lk; reflexivity.
Qed.

(** Once the payload is stored and storage keeps answering it, every
    further call is a hit. *)
Lemma hits_repeat (key0 : key) (data : bytes) (s' : S) (cached : pyvalue) :
  make_value_key core function_key func (opt_type_encoders o) args kw
    = Return key0 ->
  storage_get key0 s' = (Return (Some data), s') ->
  pickle_loads pickle data = Return cached ->
  forall (n : nat) (w : world S U),
    w_storage w = s' ->
    let runs :=
      call_repeatedly n
        (wrapper pickle core fl o func function_key lk args kw) w in
    runs.1.1 = repeat (Return cached) n /\
    w_storage runs.1.2 = s' /\ w_env runs.1.2 = w_env w /\
    executions runs.2 = 0 /\ writes runs.2 = 0.
Proof.
  intros Hk Hg Hl. induction n as [|n IH]; intros w Hw; cbv zeta.
  - simpl. auto.
  - cbn [call_repeatedly].
    rewrite (path_hit pickle core fl o func function_key lk args kw
               w key0 data s' Hk), Hl by (rewrite Hw; exact Hg).
    destruct (IH (settle s' (w_env w)) eq_refl)
      as (Hrs & Hs & Hu & Hex & Hwr).
    destruct (call_repeatedly n _ (settle s' (w_env w)))
      as [[rs w2] tr2].
    cbn [fst snd] in *. rewrite executions_app, writes_app, Hex, Hwr.
    splits; try assumption.
    + rewrite Hrs. reflexivity.
    + count_events.
    + count_events.
Qed.

(** X11. However often the call is repeated, the function runs once.
    When the first call misses, computes and stores, and storage from then
    on answers the stored payload, all of [n + 1] sequential calls return
    the same value, with one execution and one write between them. *)
Theorem repeated_calls_run_once (w : world S U) (key0 : key)
    (cached : pyvalue) (u' : U) (data : bytes) (s' s'' : S) (n : nat) :
  make_value_key core function_key func (opt_type_encoders o) args kw
    = Return key0 ->
  storage_get key0 (w_storage w) = (Return None, s') ->
  fn_body func args kw (w_env w) = (Return cached, u') ->
  pickle_dumps pickle cached = Return data ->
  storage_set key0 data (opt_expires_in o) s' = (Return tt, s'') ->
  storage_get key0 s'' = (Return (Some data), s'') ->
  pickle_loads pickle data = Return cached ->
  let runs :=
    call_repeatedly (Datatypes.S n)
      (wrapper pickle core fl o func function_key lk args kw) w in
  runs.1.1 = repeat (Return cached) (Datatypes.S n) /\
  executions runs.2 = 1 /\ writes runs.2 = 1 /\
  w_env runs.1.2 = u'.
Proof.
  intros Hk Hg Hf Hd Hs Hg2 Hl. cbv zeta. cbn [call_repeatedly].
  rewrite (path_stored pickle core fl o func function_key lk args kw
             w key0 s' s'' cached u' data Hk Hg Hf Hd Hs).
  destruct (hits_repeat key0 data s'' cached Hk Hg2 Hl n
              (settle s'' u') eq_refl)
    as (Hrs & _ & Hu & Hex & Hwr).
  destruct (call_repeatedly n _ (settle s'' u')) as [[rs w2] tr2].
  cbn [fst snd] in *. rewrite executions_app, writes_app, Hex, Hwr, Hrs.
  splits; try reflexivity; try assumption; count_events.
Qed.

End Keys.

(** ** Flavours and the two decorators *)

Section Comparisons.
Context {S U : Type} `{Storage S} (pickle : Pickle) (core : Core U).
Variables (o : options) (func : pyfunc U).
Variables (function_key : string) (lk : lock).
Variables (args : list pyvalue) (kw : kwargs).

(** X3. The two wrappers are one control flow.  From the same state
    the suspending wrapper ends with the same outcome and leaves the same
    state as the blocking one, and its trace is the same but for whether
    the storage factory was awaited. *)
Theorem flavours_agree (w : world S U) :
  let run_sync :=
    wrapper pickle core Blocking o func function_key lk args kw w in
  let run_async :=
    wrapper pickle core Suspending o func function_key lk args kw w in
  result run_async = result run_sync /\
  final run_async = final run_sync /\
  map forget_await (trace run_async) = trace run_sync.
Proof.
  cbv zeta. every_path; splits; try reflexivity;
    unfold binding, gated; destruct (w_bound w), lk; reflexivity.
Qed.

(** X13. Every function is accepted by exactly one of the two
    decorators: [cache_value] raises exactly on coroutine functions and
    [async_cache_value] exactly on the others.  The wrapper an accepting
    decorator hands out is closed over the key computed from the function
    at decoration and over a real lock exactly when [serialize] is set. *)
Theorem decorators_partition_functions :
  is_raise (fst (decorate (S := S) pickle core Blocking o func))
    = fn_iscoroutine func /\
  is_raise (fst (decorate (S := S) pickle core Suspending o func))
    = negb (fn_iscoroutine func) /\
  forall fl wr,
    fst (decorate pickle core fl o func) = Return wr ->
    wr = wrapper pickle core fl o func (make_function_key core func)
           (if opt_serialize o then Lock else NullLock).
Proof.
  unfold decorate, decorate_with, cache_value.__call__,
      async_cache_value.__call__.
  splits.
  - destruct (fn_iscoroutine func); reflexivity.
  - destruct (fn_iscoroutine func); reflexivity.
  - intros [] wr; destruct (fn_iscoroutine func); cbn [fst negb];
      intros [=]; subst; reflexivity.
Qed.

End Comparisons.

(** ** Further scenarios *)

Section FurtherScenarios.
Import scenario.

(** [call_fail(conn)]: the key cannot be derived. *)
Lemma key_error_propagates_witness :
  let run :=
    wrapper pickle core Suspending defaults call_fail
      "tests.test_value.call_fail" Lock [conn] [] (fresh empty_backend) in
  result run
    = Raise (core_model.UnhashableParamError "conn" "HTTPConnection") /\
  reads (trace run) = 0 /\ executions (trace run) = 0 /\
  writes (trace run) = 0 /\
  w_storage (final run) = empty_backend /\ w_env (final run) = 0.
Proof.
  apply (key_error_propagates pickle core Suspending defaults call_fail
           "tests.test_value.call_fail" Lock [conn] [] (fresh empty_backend)
           (core_model.UnhashableParamError "conn" "HTTPConnection")).
  vm_compute; reflexivity.
Defined.

(** The first call of [call_mock()]: one read and one write, one key. *)
Lemma only_derived_key_touched_witness :
  Forall (touches_only "tests.test_value.call_mock-")
    (trace (wrapper pickle core Blocking defaults call_mock
              "tests.test_value.call_mock" NullLock [] []
              (fresh empty_backend))).
Proof.
  apply (only_derived_key_touched pickle core Blocking defaults call_mock
           "tests.test_value.call_mock" NullLock [] [] (fresh empty_backend)
           "tests.test_value.call_mock-").
  vm_compute; reflexivity.
Defined.

(** A stored value is served although the function would raise now. *)
Lemma hit_ignores_function_witness :
  let run :=
    wrapper pickle core Blocking defaults failing
      "tests.test_value.failing" NullLock [] []
      (fresh (holding "tests.test_value.failing-" d_pickleable)) in
  result run = Return v_pickleable /\
  reads (trace run) = 1 /\ executions (trace run) = 0 /\
  writes (trace run) = 0 /\
  w_env (final run) = 0 /\
  w_storage (final run) = holding "tests.test_value.failing-" d_pickleable.
Proof.
  apply (hit_ignores_function pickle core Blocking defaults failing
           "tests.test_value.failing" NullLock [] []
           (fresh (holding "tests.test_value.failing-" d_pickleable))
           "tests.test_value.failing-" d_pickleable
           (holding "tests.test_value.failing-" d_pickleable) v_pickleable);
    vm_compute; reflexivity.
Defined.

(** The value the first call of [call_mock()] returns was computed and
    stored. *)
Lemma returned_value_origin_witness :
  let w := fresh empty_backend in
  let run :=
    wrapper pickle core Blocking defaults call_mock
      "tests.test_value.call_mock" NullLock [] [] w in
  exists key0,
    make_value_key core "tests.test_value.call_mock" call_mock
      (opt_type_encoders defaults) [] [] = Return key0 /\
    ((exists data s',
        storage_get key0 (w_storage w) = (Return (Some data), s') /\
        pickle_loads pickle data = Return v_pickleable /\
        executions (trace run) = 0 /\ writes (trace run) = 0)
     \/
     (exists s' u' data s'',
        storage_get key0 (w_storage w) = (Return None, s') /\
        fn_body call_mock [] [] (w_env w) = (Return v_pickleable, u') /\
        pickle_dumps pickle v_pickleable = Return data /\
        storage_set key0 data (opt_expires_in defaults) s'
          = (Return tt, s'') /\
        w_storage (final run) = s'' /\
        List.filter is_set (trace run)
          = [EvSet key0 data (opt_expires_in defaults)])).
Proof.
  apply (returned_value_origin pickle core Blocking defaults call_mock
           "tests.test_value.call_mock" NullLock [] [] (fresh empty_backend)
           v_pickleable).
  vm_compute; reflexivity.
Defined.

(** A payload with an unknown opcode, read twice. *)
Lemma undecodable_entry_persists_witness :
  let run1 :=
    wrapper pickle core Blocking defaults call_mock
      "tests.test_value.call_mock" NullLock [] []
      (fresh (holding "tests.test_value.call_mock-" ["?"%byte])) in
  let run2 :=
    wrapper pickle core Blocking defaults call_mock
      "tests.test_value.call_mock" NullLock [] [] (final run1) in
  is_raise (result run1) = true /\ result run2 = result run1 /\
  executions (trace run1 ++ trace run2) = 0 /\
  writes (trace run1 ++ trace run2) = 0 /\
  w_env (final run2) = 0.
Proof.
  apply (undecodable_entry_persists pickle core Blocking defaults call_mock
           "tests.test_value.call_mock" NullLock [] []
           (fresh (holding "tests.test_value.call_mock-" ["?"%byte]))
           "tests.test_value.call_mock-" ["?"%byte]
           (holding "tests.test_value.call_mock-" ["?"%byte])
           (holding "tests.test_value.call_mock-" ["?"%byte])
           invalid_load_key);
    vm_compute; reflexivity.
Defined.

(** [call_mock()] called four times: the mock is called once. *)
Lemma repeated_calls_run_once_witness :
  let runs :=
    call_repeatedly 4
      (wrapper pickle core Blocking defaults call_mock
         "tests.test_value.call_mock" NullLock [] [])
      (fresh empty_backend) in
  runs.1.1 = repeat (Return v_pickleable) 4 /\
  executions runs.2 = 1 /\ writes runs.2 = 1 /\
  w_env runs.1.2 = 1.
Proof.
  apply (repeated_calls_run_once pickle core Blocking defaults call_mock
           "tests.test_value.call_mock" NullLock [] [] (fresh empty_backend)
           "tests.test_value.call_mock-" v_pickleable 1 d_pickleable
           empty_backend
           (holding "tests.test_value.call_mock-" d_pickleable) 3);
    vm_compute; reflexivity.
Defined.

(** The first call of [call_mock()] when the backend cannot be reached,
    and the call after it. *)
Lemma storage_bound_once_witness :
  let run :=
    wrapper_with pickle core (unavailable connection_refused) Blocking
      defaults call_mock "tests.test_value.call_mock" Lock [] []
      (fresh empty_backend) in
  let next :=
    wrapper_with pickle core (unavailable connection_refused) Blocking
      defaults call_mock "tests.test_value.call_mock" Lock [] []
      (final run) in
  result run = Raise connection_refused /\
  trace run = [EvFactory false] /\
  w_bound (final run) = false /\
  w_storage (final run) = empty_backend /\ w_env (final run) = 0 /\
  exists tr, trace next = EvFactory false :: tr.
Proof.
  destruct (storage_bound_once pickle core (unavailable connection_refused)
              Blocking defaults call_mock "tests.test_value.call_mock" Lock
              [] [] (fresh empty_backend)) as (_ & Hunbound).
  exact (Hunbound eq_refl (Raise connection_refused) empty_backend eq_refl).
Defined.

(** [call_mock] under [@cache_value()], and its coroutine twin. *)
Lemma decorators_partition_functions_witness :
  is_raise (fst (decorate (S := backend) pickle core Blocking defaults
                   async_call_mock)) = true /\
  exists wr,
    fst (decorate (S := backend) pickle core Blocking defaults call_mock)
      = Return wr /\
    wr = wrapper pickle core Blocking defaults call_mock
           "tests.test_value.call_mock" NullLock.
Proof.
  destruct (decorators_partition_functions (S := backend) pickle core
              defaults async_call_mock) as (Hsync & _).
  destruct (decorators_partition_functions (S := backend) pickle core
              defaults call_mock) as (_ & _ & Hacc).
  split; [exact Hsync|].
  exists (wrapper pickle core Blocking defaults call_mock
            "tests.test_value.call_mock" NullLock).
  split; [reflexivity|]. apply (Hacc Blocking). reflexivity.
Defined.

End FurtherScenarios.
